(** * watch_data: unit conversion, time differences and streaming filters

    A shallow embedding of [myproject/watch_data/watch_data.py] and the
    properties of it that the specification states.

    Layout:
    - [Py]: the fragment of the Python runtime the module relies on
      (exceptions, [None], float arithmetic behind an interface, dictionary
      subscripting);
    - [Speed]: [calculate_speed] with its two nested converters;
    - [Clock]: [datetime] values, their subtraction, and [time_difference];
    - [Tree]: the shared element tree that [lxml.etree.iterparse] yields
      from, [Element.clear] and [WatchData.filter_elements];
    - [Runs]: the loop of [WatchData.plot_speed_by_run];
    - the vocabulary of the specification and the sample data;
    - the properties, grouped by function, and the repository's own tests
      evaluated on the embedding. *)

From Stdlib Require Import ZArith QArith Qcanon Qcabs String Ascii List Lia.
From Stdlib Require Import Floats Uint63.
From stdpp Require Import gmap strings list fin_maps.

Set Warnings "-inexact-float".
Local Open Scope string_scope.

(** ** The Python runtime fragment *)

Module Py.

(** The exception classes the module can raise, each with what identifies
    it in the source: the message of a [ValueError], the key of a
    [KeyError]. *)
Inductive exn : Type :=
  | ValueError (msg : string)
  | TypeError (msg : string)
  | KeyError (key : string)
  | ZeroDivisionError.

(** A call either returns a value or raises. *)
Inductive result (A : Type) : Type :=
  | Ok (a : A)
  | Raise (e : exn).
Arguments Ok {A} a.
Arguments Raise {A} e.

#[export] Instance result_ret : MRet result := λ A a, Ok a.
#[export] Instance result_bind : MBind result := λ A B k m,
  match m with
  | Ok a => k a
  | Raise e => Raise e
  end.

Definition is_Ok {A} (r : result A) : bool :=
  match r with Ok _ => true | Raise _ => false end.

(** Python floats behind an interface.  [fratio n d] is the float nearest
    to the rational [n / d]: it reads decimal literals ([0.621371] is
    [fratio 621371 1000000], the int [60] in [time / 60] is [fratio 60 1])
    and it is [int / int] true division.  [fdiv] is the quotient by a
    non-zero divisor; Python's check for a zero divisor is [truediv]
    below. *)
Class PyFloat (F : Type) : Type := {
  fratio : Z → Z → F;
  fmul : F → F → F;
  fdiv : F → F → F;
  fabs : F → F;
  fis_zero : F → bool;
  fge : F → F → bool;
}.

(** Two arithmetic facts that statements about values (not about
    control flow) rest on; IEEE-754 arithmetic and exact arithmetic both
    have them.  Division by one is exact. *)
Class DivisionByOne (F : Type) `{PyFloat F} : Prop :=
  fdiv_one : ∀ x : F, fdiv x (fratio 1 1) = x.

(** Rounding is symmetric about zero: a quotient and the quotient of the
    opposite numerator have the same magnitude. *)
Class SymmetricRounding (F : Type) `{PyFloat F} : Prop :=
  fabs_ratio_opp : ∀ n d : Z, fabs (fratio (- n) d) = fabs (fratio n d).

Section Runtime.
Context {F : Type} `{PyFloat F}.

(** [bool(x)] of a float. *)
Definition float_truthy (x : F) : bool := negb (fis_zero x).

(** [x / y] where [x] is a float and [y] is a float or [None]. *)
Definition truediv (x : F) (y : option F) : result F :=
  match y with
  | None =>
      Raise (TypeError "unsupported operand type(s) for /: 'float' and 'NoneType'")
  | Some y => if fis_zero y then Raise ZeroDivisionError else Ok (fdiv x y)
  end.

(** [float(v)] where [v] is a string or [None]; [parse] is the string
    parser of the float type. *)
Definition float_of (parse : string → option F) (v : option string) : result F :=
  match v with
  | None => Raise (TypeError "float() argument must be a string or a real number, not 'NoneType'")
  | Some s =>
      match parse s with
      | Some x => Ok x
      | None => Raise (ValueError ("could not convert string to float: " ++ s))
      end
  end.
End Runtime.

(** [d[key]] on a dictionary of strings: a missing key raises. *)
Definition getitem (d : gmap string string) (key : string) : result string :=
  match d !! key with
  | Some v => Ok v
  | None => Raise (KeyError key)
  end.

(** Truth value of what a filter returns: [True], [False] or [None]. *)
Definition truthy (v : option bool) : bool :=
  match v with Some b => b | None => false end.

End Py.
Import Py.

(** ** Two float models *)

(** IEEE-754 binary64, the float of CPython.  [fratio] converts both
    integers and divides; the result is the correctly rounded quotient
    whenever both magnitudes are below [2^53] (every literal of the
    module, and microsecond counts up to 285 years). *)
Module Binary64.
Definition of_Z (z : Z) : float :=
  match z with
  | Z0 => 0%float
  | Zpos _ => of_uint63 (Uint63.of_Z z)
  | Zneg p => (- of_uint63 (Uint63.of_Z (Zpos p)))%float
  end.

#[export] Instance binary64 : PyFloat float := {|
  fratio n d := (of_Z n / of_Z d)%float;
  fmul := PrimFloat.mul;
  fdiv := PrimFloat.div;
  fabs := PrimFloat.abs;
  fis_zero x := PrimFloat.eqb x 0%float;
  fge x y := PrimFloat.leb y x;
|}.
End Binary64.

(** Exact rational arithmetic: floats without rounding. *)
Module Exact.
Definition ratio (n d : Z) : Qc := (Q2Qc (inject_Z n) / Q2Qc (inject_Z d))%Qc.

#[export] Instance exact : PyFloat Qc := {|
  fratio := ratio;
  fmul := Qcmult;
  fdiv := Qcdiv;
  fabs := Qcabs;
  fis_zero x := if Qc_eq_dec x (Q2Qc 0) then true else false;
  fge x y := if Qclt_le_dec x y then false else true;
|}.
End Exact.
Import Binary64 Exact.

(** ** calculate_speed *)

Module Speed.

(** Which converters a call of [calculate_speed] invoked, in order. *)
Inductive call : Type := Call_convert_distance | Call_convert_time.

(** A result together with the converter calls made on the way. *)
Record traced (A : Type) : Type := Traced { calls : list call; outcome : result A }.
Arguments Traced {A} calls outcome.
Arguments calls {A} t.
Arguments outcome {A} t.

Definition quiet {A} (r : result A) : traced A := Traced [] r.
Definition invoke {A} (c : call) (r : result A) : traced A := Traced [c] r.
Definition and_then {A B} (m : traced A) (k : A → traced B) : traced B :=
  match outcome m with
  | Ok a => Traced (calls m ++ calls (k a)) (outcome (k a))
  | Raise e => Traced (calls m) (Raise e)
  end.

Definition output_unit_msg : string := "output_distance_unit must be 'mi' or 'km'".

Section Speed.
Context {F : Type} `{PyFloat F}.

(** The nested [_convert_time].  A branch of the source that ends
    without a [return] yields [None]. *)
Definition _convert_time (time : F) (time_unit output_time_unit : string)
  : result (option F) :=
  if decide (time_unit = "seconds") then
    if decide (output_time_unit = "minutes") then Ok (Some (fdiv time (fratio 60 1)))
    else if decide (output_time_unit = "hours") then Ok (Some (fdiv time (fratio 3600 1)))
    else Ok None
  else if decide (time_unit = "minutes") then
    if decide (output_time_unit = "seconds") then Ok (Some (fmul time (fratio 60 1)))
    else if decide (output_time_unit = "hours") then Ok (Some (fdiv time (fratio 60 1)))
    else Ok None
  else if decide (time_unit = "hours") then
    if decide (output_time_unit = "seconds") then Ok (Some (fmul time (fratio 3600 1)))
    else if decide (output_time_unit = "minutes") then Ok (Some (fmul time (fratio 60 1)))
    else Ok None
  else Raise (ValueError ("Invalid time unit: " ++ time_unit)).

(** The nested [_convert_distance]. *)
Definition _convert_distance (distance : F) (distance_unit output_distance_unit : string)
  : result F :=
  if decide (distance_unit = "km") then
    if decide (output_distance_unit = "mi") then Ok (fmul distance (fratio 621371 1000000))
    else if decide (output_distance_unit = "km") then Ok distance
    else Raise (ValueError output_unit_msg)
  else if decide (distance_unit = "mi") then
    if decide (output_distance_unit = "km") then Ok (fmul distance (fratio 160934 100000))
    else if decide (output_distance_unit = "mi") then Ok distance
    else Raise (ValueError output_unit_msg)
  else Raise (ValueError ("Invalid distance unit: " ++ distance_unit)).

(** The body of [calculate_speed], recording converter calls. *)
Definition calculate_speed_traced (distance time : F)
    (distance_unit time_unit output_distance_unit output_time_unit : string)
  : traced F :=
  let output_distance_unit :=
    if decide (output_distance_unit = "") then distance_unit else output_distance_unit in
  let output_time_unit :=
    if decide (output_time_unit = "") then time_unit else output_time_unit in
  and_then
    (if decide (distance_unit ≠ output_distance_unit)
     then invoke Call_convert_distance
            (_convert_distance distance distance_unit output_distance_unit)
     else quiet (Ok distance))
    (λ distance,
  and_then
    (if decide (time_unit ≠ output_time_unit)
     then invoke Call_convert_time (_convert_time time time_unit output_time_unit)
     else quiet (Ok (Some time)))
    (λ time,
  quiet (truediv distance time))).

Definition calculate_speed (distance time : F)
    (distance_unit time_unit output_distance_unit output_time_unit : string)
  : result F :=
  outcome (calculate_speed_traced distance time distance_unit time_unit
             output_distance_unit output_time_unit).
End Speed.
End Speed.
Import Speed.

(** ** datetime and time_difference *)

Module Clock.

(** An aware [datetime.datetime]: the civil fields and the UTC offset of
    its fixed-offset [tzinfo], in microseconds.  [strptime] with a [%z]
    directive always produces one. *)
Record datetime : Type := Datetime {
  year : Z; month : Z; day : Z;
  hour : Z; minute : Z; second : Z; microsecond : Z;
  utcoffset : Z;
}.

(** A [datetime.timedelta], as its number of microseconds. *)
Definition timedelta : Type := Z.

Definition _is_leap (y : Z) : bool :=
  (y mod 4 =? 0)%Z && (negb (y mod 100 =? 0)%Z || (y mod 400 =? 0)%Z).

Definition _days_before_year (y : Z) : Z :=
  let y := (y - 1)%Z in (y * 365 + y / 4 - y / 100 + y / 400)%Z.

Definition _DAYS_IN_MONTH : list Z := [31; 28; 31; 30; 31; 30; 31; 31; 30; 31; 30; 31]%Z.

Definition _days_in_month (y m : Z) : Z :=
  if (m =? 2)%Z && _is_leap y then 29%Z
  else nth (Z.to_nat (m - 1)) _DAYS_IN_MONTH 0%Z.

Definition _days_before_month (y m : Z) : Z :=
  (fold_right Z.add 0 (firstn (Z.to_nat (m - 1)) _DAYS_IN_MONTH)
 + (if (2 <? m)%Z && _is_leap y then 1 else 0))%Z.

Definition _ymd2ord (y m d : Z) : Z :=
  (_days_before_year y + _days_before_month y m + d)%Z.

Definition toordinal (t : datetime) : Z := _ymd2ord (year t) (month t) (day t).

(** [self - other] on two aware datetimes ([datetime.__sub__]). *)
Definition datetime_sub (self other : datetime) : timedelta :=
  let days1 := toordinal self in
  let days2 := toordinal other in
  let secs1 := (second self + minute self * 60 + hour self * 3600)%Z in
  let secs2 := (second other + minute other * 60 + hour other * 3600)%Z in
  let base :=
  (((days1 - days2) * 86400 + (secs1 - secs2)) * 1000000
   + (microsecond self - microsecond other))%Z in
  (base + utcoffset other - utcoffset self)%Z.

Definition digit (n : Z) : ascii := ascii_of_nat (48 + Z.to_nat (n mod 10)).
Definition pad2 (n : Z) : string := String (digit (n / 10)) (String (digit n) "").
Definition pad4 (n : Z) : string :=
  String (digit (n / 1000)) (String (digit (n / 100)) (pad2 n)).

(** [t.date().strftime('%Y-%m-%d')]. *)
Definition date_strftime (t : datetime) : string :=
  pad4 (year t) ++ "-" ++ pad2 (month t) ++ "-" ++ pad2 (day t).

Definition TIMESTAMP_FORMAT : string := "%Y-%m-%d %H:%M:%S %z".

Definition invalid_unit_msg (unit : string) : string :=
  "Invalid unit: " ++ unit
  ++ ". Possible units are: seconds, minutes, hours, days, weeks, years.".

Section Clock.
Context {F : Type} `{PyFloat F}.

(** [datetime.datetime.strptime(date_string, format)]: the parsed value,
    or the [ValueError] it raises. *)
Variable strptime : string → string → result datetime.

(** [td.total_seconds()]. *)
Definition total_seconds (td : timedelta) : F := fratio td 1000000.

Definition time_difference (d1 d2 unit : string) : result F :=
  d1 ← strptime d1 TIMESTAMP_FORMAT;
  d2 ← strptime d2 TIMESTAMP_FORMAT;
  let absolute_difference_in_seconds := fabs (total_seconds (datetime_sub d2 d1)) in
  if decide (unit = "seconds") then Ok absolute_difference_in_seconds
  else if decide (unit = "minutes") then
    Ok (fdiv absolute_difference_in_seconds (fratio 60 1))
  else if decide (unit = "hours") then
    Ok (fdiv absolute_difference_in_seconds (fratio 3600 1))
  else if decide (unit = "days") then
    Ok (fdiv absolute_difference_in_seconds (fratio 86400 1))
  else if decide (unit = "weeks") then
    Ok (fdiv absolute_difference_in_seconds (fratio 604800 1))
  else if decide (unit = "years") then
    Ok (fdiv absolute_difference_in_seconds (fratio 31556926 1))
  else Raise (ValueError (invalid_unit_msg unit)).
End Clock.

(** A reader for the wire form [YYYY-MM-DD HH:MM:SS +HHMM] (or [-HHMM]):
    fixed-width fields, one space between the parts.  CPython's
    [strptime] accepts these strings and reads them the same way (it also
    accepts looser spellings, which this reader rejects). *)
Module Wire.
Definition parser (A : Type) : Type := list ascii → option (A * list ascii).

Definition digit_val (c : ascii) : option Z :=
  let n := Z.of_nat (nat_of_ascii c) in
  if (48 <=? n)%Z && (n <=? 57)%Z then Some (n - 48)%Z else None.

Fixpoint digits (k : nat) (acc : Z) : parser Z := λ s,
  match k with
  | O => Some (acc, s)
  | S k =>
      match s with
      | c :: s => v ← digit_val c; digits k (acc * 10 + v)%Z s
      | [] => None
      end
  end.

Definition expect (c : ascii) : parser unit := λ s,
  match s with
  | c' :: s => if decide (c = c') then Some (tt, s) else None
  | [] => None
  end.

Definition sign : parser Z := λ s,
  match s with
  | c :: s =>
      if decide (c = "+"%char) then Some (1%Z, s)
      else if decide (c = "-"%char) then Some ((-1)%Z, s)
      else None
  | [] => None
  end.

Definition in_range (lo v hi : Z) : option unit :=
  if (lo <=? v)%Z && (v <=? hi)%Z then Some tt else None.

Definition read (s : string) : option datetime :=
  let s := list_ascii_of_string s in
  '(y, s) ← digits 4 0 s;  '(_, s) ← expect "-" s;
  '(m, s) ← digits 2 0 s;  '(_, s) ← expect "-" s;
  '(d, s) ← digits 2 0 s;  '(_, s) ← expect " " s;
  '(hh, s) ← digits 2 0 s; '(_, s) ← expect ":" s;
  '(mm, s) ← digits 2 0 s; '(_, s) ← expect ":" s;
  '(ss, s) ← digits 2 0 s; '(_, s) ← expect " " s;
  '(sg, s) ← sign s;
  '(oh, s) ← digits 2 0 s;
  '(om, s) ← digits 2 0 s;
  _ ← in_range 1 y 9999; _ ← in_range 1 m 12;
  _ ← in_range 1 d (_days_in_month y m);
  _ ← in_range 0 hh 23; _ ← in_range 0 mm 59; _ ← in_range 0 ss 59;
  _ ← in_range 0 om 59;
  match s with
  | [] => Some (Datetime y m d hh mm ss 0 (sg * (oh * 3600 + om * 60) * 1000000))
  | _ :: _ => None
  end.

Definition strptime (date_string format : string) : result datetime :=
  if decide (format = TIMESTAMP_FORMAT) then
    match read date_string with
    | Some t => Ok t
    | None =>
        Raise (ValueError ("time data '" ++ date_string ++ "' does not match format '"
                           ++ format ++ "'"))
    end
  else Raise (ValueError "unsupported format").
End Wire.

End Clock.
Import Clock.

(** ** The element tree and filter_elements *)

Module Tree.

(** One node of the tree that [lxml.etree.iterparse] builds.  Elements are
    objects of a shared tree: a node refers to its children by identity,
    here by their keys in the store. *)
Record Element : Type := mkElement {
  tag : string;
  attrib : gmap string string;
  text : option string;
  tail : option string;
  children : list nat;
}.

#[export] Instance Element_inhabited : Inhabited Element :=
  populate (mkElement "" ∅ None None []).

(** [element.get(key)]: the attribute, or [None]. *)
Definition get (element : Element) (key : string) : option string :=
  attrib element !! key.

(** [element.clear()]: drops the attributes, the text, the tail and the
    references to the children; the tag stays. *)
Definition clear (element : Element) : Element :=
  mkElement (tag element) ∅ None None [].

(** The tree in memory: every element object by its identity. *)
Abbreviation store := (gmap nat Element).

Definition clear_at (element : nat) (st : store) : store := alter clear element st.

(** A filter is any callable on an element object.  It may follow the
    element's references into the tree, so it reads the store as it is
    when it is called. *)
Abbreviation filter_fn := (store → nat → result (option bool)).

(** A filter that looks at nothing but the node it is given. *)
Definition on_node (f : Element → result (option bool)) : filter_fn :=
  λ st element, f (st !!! element).

(** The loop of [filter_elements]: [tree] is what remains of the
    iteration, [results] the list built so far. *)
Fixpoint filter_loop (filt : filter_fn) (tree : list nat) (st : store)
    (results : list nat) : result (list nat * store) :=
  match tree with
  | [] => Ok (results, st)
  | element :: tree =>
      v ← filt st element;
      if truthy v then filter_loop filt tree st (results ++ [element])%list
      else filter_loop filt tree (clear_at element st) results
  end.

(** [WatchData.filter_elements]: [st] is the tree of [export.xml] and
    [events] the elements in the order [iterparse] yields them (one [end]
    event each).  Returns the list and the tree as the scan leaves it. *)
Definition filter_elements (filt : filter_fn) (st : store) (events : list nat)
  : result (list nat * store) :=
  filter_loop filt events st [].

Definition RUNNING : string := "HKWorkoutActivityTypeRunning".

(** The nested [_filter_runs] of [plot_speed_by_run]. *)
Definition _filter_runs (element : Element) : result (option bool) :=
  if decide (get element "workoutActivityType" = Some RUNNING) then Ok (Some true)
  else Ok None.

Section Example.
Context {F : Type} `{PyFloat F}.
Variable parse_float : string → option F.

(** [example_filter]; the walrus binds [duration] and tests its truth
    value. *)
Definition example_filter (element : Element) : result (option bool) :=
  if decide (get element "workoutActivityType" = Some RUNNING) then
    duration ← float_of parse_float (get element "duration");
    if float_truthy duration then Ok (Some (fge duration (fratio 30 1)))
    else Ok None
  else Ok None.
End Example.

End Tree.
Import Tree.

(** ** plot_speed_by_run *)

Module Runs.
Section Runs.
Context {F : Type} `{PyFloat F}.
Variable strptime : string → string → result datetime.
Variable parse_float : string → option F.

(** The [results] dictionary: its two lists. *)
Record Results : Type := mkResults { date : list string; speed : list F }.

(** [not tracker.get(date_key)] on the [defaultdict]: [get] does not
    create the entry, so an absent key gives [None]. *)
Definition not_tracked (tracker : gmap string Z) (date_key : string) : bool :=
  match tracker !! date_key with
  | None => true
  | Some v => (v =? 0)%Z
  end.

(** One iteration of the loop over [runs]. *)
Definition run_step (run : Element) (state : gmap string Z * Results)
  : result (gmap string Z * Results) :=
  let '(tracker, results) := state in
  startDate ← getitem (attrib run) "startDate";
  endDate ← getitem (attrib run) "endDate";
  time_in_hours ← time_difference strptime startDate endDate "hours";
  creationDate ← getitem (attrib run) "creationDate";
  created ← strptime creationDate TIMESTAMP_FORMAT;
  let date_key := date_strftime created in
  if not_tracked tracker date_key then
    let tracker := <[date_key := 1%Z]> tracker in
    let dates := (date results ++ [date_key])%list in
    totalDistance ← getitem (attrib run) "totalDistance";
    distance ← float_of parse_float (Some totalDistance);
    totalDistanceUnit ← getitem (attrib run) "totalDistanceUnit";
    v ← calculate_speed distance time_in_hours totalDistanceUnit "hours" "" "";
    Ok (tracker, mkResults dates (speed results ++ [v])%list)
  else Ok (tracker, results).

Fixpoint run_loop (runs : list Element) (state : gmap string Z * Results)
  : result (gmap string Z * Results) :=
  match runs with
  | [] => Ok state
  | run :: runs => state ← run_step run state; run_loop runs state
  end.

(** The loop of [plot_speed_by_run] over the filtered [runs]: the
    [results] that the method hands to the data frame. *)
Definition speed_by_run (runs : list Element) : result Results :=
  state ← run_loop runs (∅, mkResults [] []);
  Ok (state.2).

(** [plot_speed_by_run] up to the plot: filter the document, then
    aggregate the elements kept, read in the tree the scan left. *)
Definition plot_speed_by_run (st : store) (events : list nat) : result Results :=
  '(runs, st) ← filter_elements (on_node _filter_runs) st events;
  speed_by_run ((λ element, st !!! element) <$> runs).

(** The (date, speed) rows of the data frame. *)
Definition rows (r : Results) : list (string * F) := zip (date r) (speed r).

(** What one run contributes when it is the first of its date: the
    date key and the speed, or the exception it would raise. *)
Definition run_date (run : Element) : result string :=
  creationDate ← getitem (attrib run) "creationDate";
  created ← strptime creationDate TIMESTAMP_FORMAT;
  Ok (date_strftime created).

Definition run_time (run : Element) : result F :=
  startDate ← getitem (attrib run) "startDate";
  endDate ← getitem (attrib run) "endDate";
  time_difference strptime startDate endDate "hours".

Definition run_speed (run : Element) : result F :=
  time_in_hours ← run_time run;
  totalDistance ← getitem (attrib run) "totalDistance";
  distance ← float_of parse_float (Some totalDistance);
  totalDistanceUnit ← getitem (attrib run) "totalDistanceUnit";
  calculate_speed distance time_in_hours totalDistanceUnit "hours" "" "".

Definition run_record (run : Element) : result (string * F) :=
  d ← run_date run; v ← run_speed run; Ok (d, v).
End Runs.
Arguments mkResults {F} date speed.
Arguments date {F} r.
Arguments speed {F} r.

(** The first-wins rule in the words of the specification: go through
    the records in order, keep a record when its date has no record yet,
    skip it otherwise. *)
Fixpoint first_per_date {A} (seen : list string) (records : list (string * A))
  : list (string * A) :=
  match records with
  | [] => []
  | (d, v) :: records =>
      if decide (d ∈ seen) then first_per_date seen records
      else (d, v) :: first_per_date (d :: seen) records
  end.

End Runs.
Import Runs.

(** A reader for plain decimal numerals, [digits], [digits.digits] with an
    optional sign: the spellings of distances and durations in an export.
    Python's [float] reads them to the nearest float, as [fratio] does. *)
Module Decimal.
Section Decimal.
Context {F : Type} `{PyFloat F}.

Fixpoint digits_of (s : list ascii) (acc : Z) (n : nat) : Z * nat * list ascii :=
  match s with
  | c :: s' =>
      match Wire.digit_val c with
      | Some v => digits_of s' (acc * 10 + v)%Z (S n)
      | None => (acc, n, s)
      end
  | [] => (acc, n, s)
  end.

Definition unsigned (s : list ascii) : option (Z * Z) :=
  let '(whole, n, s) := digits_of s 0 0 in
  match s with
  | [] => if decide (n = 0%nat) then None else Some (whole, 1%Z)
  | c :: s =>
      if decide (c = "."%char) then
        let '(all, k, s) := digits_of s whole 0 in
        match s with
        | [] => if decide ((n + k)%nat = 0%nat) then None else Some (all, (10 ^ Z.of_nat k)%Z)
        | _ :: _ => None
        end
      else None
  end.

Definition parse (s : string) : option F :=
  match list_ascii_of_string s with
  | c :: s' =>
      if decide (c = "-"%char) then '(n, d) ← unsigned s'; Some (fratio (- n) d)
      else if decide (c = "+"%char) then '(n, d) ← unsigned s'; Some (fratio n d)
      else '(n, d) ← unsigned (c :: s'); Some (fratio n d)
  | [] => None
  end.
End Decimal.
End Decimal.

(** * Vocabulary of the specification, and sample data *)

(** ** Units *)

Definition DISTANCE_UNITS : list string := ["km"; "mi"].
Definition TIME_UNITS : list string := ["seconds"; "minutes"; "hours"].

(** The output unit in effect: an empty argument stands for the input
    unit. *)
Definition effective (unit output_unit : string) : string :=
  if decide (output_unit = "") then unit else output_unit.




(** The binary64 number one, as its sign, mantissa and exponent. *)
Definition one_sf : spec_float := S754_finite false 4503599627370496 (-52)%Z.

(** ** Time differences *)

(** The table of divisors in the specification: seconds per unit. *)
Definition DIVISORS : list (string * Z) :=
  [("seconds", 1); ("minutes", 60); ("hours", 3600); ("days", 86400);
   ("weeks", 604800); ("years", 31556926)]%Z.




(** ** Filters and documents *)

(** A running workout whose export carries no [duration] attribute. *)
Definition run_without_duration : Element :=
  mkElement "Workout" {[ "workoutActivityType" := RUNNING ]} None None [].

(** What the filter says of an element of the tree [st]. *)
Definition accepts (filt : filter_fn) (st : store) (element : nat) : bool :=
  match filt st element with
  | Ok v => truthy v
  | Raise _ => false
  end.

(** The filter reads the node it is given and no other node of the
    tree. *)
Definition own_node_only (filt : filter_fn) : Prop :=
  ∀ (st st' : store) element, st !! element = st' !! element →
    filt st element = filt st' element.



(** Three sibling workouts, the middle one a walk. *)
Definition workout (activity : string) : Element :=
  mkElement "Workout" {[ "workoutActivityType" := activity ]} None None [].

(** ** Runs *)

(** The keys the tracker answers for are the dates seen so far. *)
Definition tracks (tracker : gmap string Z) (seen : list string) : Prop :=
  ∀ d, not_tracked tracker d = false ↔ d ∈ seen.

(** Three runs, the first two created on the same day: 5 km in half an
    hour, 5 km in an hour, 7.5 mi in an hour. *)
Definition run_of (attributes : list (string * string)) : Element :=
  mkElement "Workout" (list_to_map attributes) None None [].

Definition three_runs : list Element :=
  [ run_of [("startDate", "2021-03-07 10:00:00 -0500"); ("endDate", "2021-03-07 10:30:00 -0500");
            ("creationDate", "2021-03-07 10:31:00 -0500");
            ("totalDistance", "5.0"); ("totalDistanceUnit", "km")];
    run_of [("startDate", "2021-03-07 17:00:00 -0500"); ("endDate", "2021-03-07 18:00:00 -0500");
            ("creationDate", "2021-03-07 18:01:00 -0500");
            ("totalDistance", "5.0"); ("totalDistanceUnit", "km")];
    run_of [("startDate", "2021-03-08 10:00:00 -0500"); ("endDate", "2021-03-08 11:00:00 -0500");
            ("creationDate", "2021-03-08 11:02:00 -0500");
            ("totalDistance", "7.5"); ("totalDistanceUnit", "mi")] ].

Definition three_records : list (string * float) :=
  [("2021-03-07", 10%float); ("2021-03-07", 5%float); ("2021-03-08", 7.5%float)].

(** ** Vocabulary of the further properties *)


(** The instant of an aware datetime, in microseconds of UTC: its civil
    time counted from the start of ordinal day zero, less its offset. *)
Definition instant (t : datetime) : Z :=
  ((toordinal t * 86400 + (second t + minute t * 60 + hour t * 3600)) * 1000000
   + microsecond t - utcoffset t)%Z.

(** What [example_filter] lets through, read off the element: a running
    workout whose duration parses to a number that is true (not zero)
    and at least 30. *)
Definition long_run {F} `{PyFloat F} (parse_float : string → option F)
    (element : Element) : bool :=
  bool_decide (get element "workoutActivityType" = Some RUNNING)
  && match get element "duration" ≫= parse_float with
     | Some x => float_truthy x && fge x (fratio 30 1)
     | None => false
     end.

(** A workout with an activity type and a duration. *)
Definition timed_workout (activity duration : string) : Element :=
  mkElement "Workout"
    {[ "workoutActivityType" := activity; "duration" := duration ]} None None [].

(** Four workouts with durations; and the same with the duration of one
    run missing. *)
Definition timed : store :=
  {[ 0%nat := timed_workout RUNNING "45.5";
     1%nat := timed_workout RUNNING "12";
     2%nat := timed_workout "HKWorkoutActivityTypeWalking" "60";
     3%nat := timed_workout RUNNING "30" ]}.

Definition untimed : store :=
  {[ 0%nat := timed_workout RUNNING "45.5";
     1%nat := timed_workout "HKWorkoutActivityTypeWalking" "60";
     2%nat := run_without_duration;
     3%nat := timed_workout RUNNING "30" ]}.

(** The date column in the words of the code's comment ("just append
    the first run for any given date"): the keys in order, each once, a
    key already seen left out. *)
Fixpoint first_dates (seen keys : list string) : list string :=
  match keys with
  | [] => []
  | d :: keys =>
      if decide (d ∈ seen) then first_dates seen keys
      else d :: first_dates (d :: seen) keys
  end.

(** The columns that the three sample runs give. *)
Definition three_rows : Results (F:=float) :=
  mkResults ["2021-03-07"; "2021-03-08"] [10%float; 7.5%float].

(** Three more runs: a second run of 8 March that carries no distance,
    a run that ends when it starts, and a run with no start date. *)
Definition late_run : Element :=
  run_of [("startDate", "2021-03-08 18:00:00 -0500"); ("endDate", "2021-03-08 18:45:00 -0500");
          ("creationDate", "2021-03-08 18:46:00 -0500")].

Definition zero_run : Element :=
  run_of [("startDate", "2021-03-09 07:00:00 -0500"); ("endDate", "2021-03-09 07:00:00 -0500");
          ("creationDate", "2021-03-09 07:01:00 -0500");
          ("totalDistance", "0.1"); ("totalDistanceUnit", "km")].

Definition no_start_run : Element :=
  run_of [("endDate", "2021-03-07 19:00:00 -0500");
          ("creationDate", "2021-03-07 19:01:00 -0500");
          ("totalDistance", "3.2"); ("totalDistanceUnit", "km")].

(** A run in furlongs: the unit is none of the supported ones. *)
Definition furlong_run : Element :=
  run_of [("startDate", "2021-03-10 07:00:00 -0500"); ("endDate", "2021-03-10 07:30:00 -0500");
          ("creationDate", "2021-03-10 07:31:00 -0500");
          ("totalDistance", "24"); ("totalDistanceUnit", "furlong")].

(** The element with its activity set to running. *)
Definition as_running (element : Element) : Element :=
  mkElement (tag element) (<[ "workoutActivityType" := RUNNING ]> (attrib element))
    (text element) (tail element) (children element).

(** An export: a heart-rate record, the three sample runs, a walk with
    no attribute but its activity, and the root, which closes last. *)
Definition export : store :=
  list_to_map
    ((0%nat, mkElement "Record" {[ "type" := "HKQuantityTypeIdentifierHeartRate" ]}
               None None [])
     :: zip [1; 2; 3]%nat (as_running <$> three_runs)
     ++ [(4%nat, workout "HKWorkoutActivityTypeWalking");
         (5%nat, mkElement "HealthData" ∅ None None [0; 1; 2; 3; 4]%nat)])%list.

Definition export_events : list nat := [0; 1; 2; 3; 4; 5]%nat.

(** An export without a run. *)
Definition quiet_export : store :=
  {[ 0%nat := workout "HKWorkoutActivityTypeWalking";
     1%nat := mkElement "HealthData" ∅ None None [0%nat] ]}.

(** * Properties *)

(** ** Arithmetic of the two float models *)

Lemma ratio_one : Exact.ratio 1 1 = Q2Qc 1.
Proof. apply Qc_is_canon. reflexivity. Qed.

Lemma ratio_opp (n d : Z) : Exact.ratio (- n) d = (- Exact.ratio n d)%Qc.
Proof.
  unfold Exact.ratio.
  assert (Q2Qc (inject_Z (- n)) = (- Q2Qc (inject_Z n))%Qc) as ->.
  { apply Qc_is_canon. simpl. rewrite !Qred_correct. unfold Qeq. simpl. lia. }
  unfold Qcdiv. ring.
Qed.

#[export] Instance exact_division_by_one : DivisionByOne Qc.
Proof.
  intros x. simpl. rewrite ratio_one. unfold Qcdiv.
  assert ((/ Q2Qc 1)%Qc = Q2Qc 1) as -> by (apply Qc_is_canon; reflexivity).
  change (Q2Qc 1) with 1%Qc. ring.
Qed.

#[export] Instance exact_symmetric_rounding : SymmetricRounding Qc.
Proof. intros n d. simpl. rewrite ratio_opp. apply Qcabs_opp. Qed.

(** In binary64 the sign of a quotient goes through the rounding
    untouched, so its magnitude does not depend on it. *)
Lemma SFabs_binary_round_aux (prec emax : Z) (s1 s2 : bool) (m e : Z) (l : location) :
  SFabs (binary_round_aux prec emax s1 m e l) = SFabs (binary_round_aux prec emax s2 m e l).
Proof.
  unfold binary_round_aux.
  destruct (shr_fexp prec emax m e l) as [mrs e'].
  destruct (shr_fexp prec emax _ e' loc_Exact) as [mrs' e''].
  destruct (shr_m mrs'); [reflexivity | | reflexivity].
  destruct (Z.leb e'' (emax - prec)); reflexivity.
Qed.

Lemma SFabs_SFdiv_opp (prec emax : Z) (x y : spec_float) :
  SFabs (SFdiv prec emax (SFopp x) y) = SFabs (SFdiv prec emax x y).
Proof.
  destruct x, y; simpl; try reflexivity.
  destruct (SFdiv_core_binary prec emax _ _ _ _) as [[mz ez] lz].
  apply SFabs_binary_round_aux.
Qed.

Lemma float_abs_div_opp (x y : float) :
  PrimFloat.abs (PrimFloat.div (PrimFloat.opp x) y) = PrimFloat.abs (PrimFloat.div x y).
Proof.
  apply Prim2SF_inj.
  rewrite !FloatAxioms.abs_spec, !FloatAxioms.div_spec, FloatAxioms.opp_spec.
  apply SFabs_SFdiv_opp.
Qed.

#[export] Instance binary64_symmetric_rounding : SymmetricRounding float.
Proof.
  intros n d. simpl. destruct n as [| p | p]; simpl.
  - reflexivity.
  - apply float_abs_div_opp.
  - symmetry. apply float_abs_div_opp.
Qed.

(** In binary64 a quotient by one is the dividend: the division core
    yields the mantissa itself (or its double, one exponent lower) with
    no remainder, and rounding an exact canonical mantissa changes
    nothing. *)
Section DivisionByOne.
Local Open Scope Z_scope.

Lemma div_eucl_mul (a b : Z) : 0 < b → Z.div_eucl (a * b) b = (a, 0).
Proof.
  intros Hb. destruct (Z.div_eucl (a * b) b) as [q r] eqn:E.
  assert (q = a * b / b) as -> by (unfold Z.div; rewrite E; reflexivity).
  assert (r = (a * b) mod b) as -> by (unfold Z.modulo; rewrite E; reflexivity).
  rewrite Z.div_mul, Z.mod_mul by lia. reflexivity.
Qed.

Lemma fexp64 (e : Z) : fexp prec emax e = Z.max (e - 53) (-1074).
Proof. reflexivity. Qed.

Lemma round_exact (s : bool) (m : positive) (e : Z) :
  fexp prec emax (Zpos (digits2_pos m) + e) = e →
  (e <=? emax - prec) = true →
  binary_round_aux prec emax s (Zpos m) e loc_Exact = S754_finite s m e.
Proof.
  intros Hc Hb. unfold binary_round_aux, shr_fexp.
  change (Zdigits2 (Zpos m)) with (Zpos (digits2_pos m)).
  rewrite Hc, Z.sub_diag.
  cbn [shr shr_m loc_of_shr_record round_nearest_even shr_record_of_loc].
  change (Zdigits2 (Zpos m)) with (Zpos (digits2_pos m)).
  rewrite Hc, Z.sub_diag.
  cbn [shr shr_m loc_of_shr_record round_nearest_even shr_record_of_loc].
  rewrite Hb. reflexivity.
Qed.

Lemma round_exact_even (s : bool) (m : positive) (e : Z) :
  fexp prec emax (Zpos (digits2_pos m) + e) = e →
  -1074 < e →
  (e <=? emax - prec) = true →
  binary_round_aux prec emax s (Zpos m~0) (e - 1) loc_Exact = S754_finite s m e.
Proof.
  intros Hc Hlo Hb. unfold binary_round_aux, shr_fexp.
  change (Zdigits2 (Zpos m~0)) with (Zpos (Pos.succ (digits2_pos m))).
  assert (fexp prec emax (Zpos (Pos.succ (digits2_pos m)) + (e - 1)) - (e - 1) = 1) as ->.
  { rewrite fexp64 in *. lia. }
  cbn [shr shr_record_of_loc].
  change (SpecFloat.iter_pos shr_1 1 {| shr_m := Zpos m~0; shr_r := false; shr_s := false |})
    with {| shr_m := Zpos m; shr_r := false; shr_s := false |}.
  cbn [shr_m loc_of_shr_record round_nearest_even].
  replace (e - 1 + 1) with e by lia.
  change (Zdigits2 (Zpos m)) with (Zpos (digits2_pos m)).
  rewrite Hc, Z.sub_diag.
  cbn [shr shr_m loc_of_shr_record round_nearest_even shr_record_of_loc].
  rewrite Hb. reflexivity.
Qed.

Lemma SFdiv_one (sx : bool) (mx : positive) (ex : Z) :
  bounded prec emax mx ex = true →
  SFdiv prec emax (S754_finite sx mx ex) one_sf = S754_finite sx mx ex.
Proof.
  unfold bounded, canonical_mantissa. intros [Hc Hb]%andb_prop.
  apply Z.eqb_eq in Hc.
  unfold one_sf, SFdiv, SFdiv_core_binary.
  change (Zdigits2 (Zpos 4503599627370496)) with 53.
  change (Zdigits2 (Zpos mx)) with (Zpos (digits2_pos mx)).
  rewrite xorb_false_r.
  destruct (Z.eq_dec ex (-1074)) as [-> | Hne].
  - assert (Z.min (fexp prec emax (Zpos (digits2_pos mx) + -1074 - (53 + -52))) (-1074 - -52)
            = -1074) as ->.
    { rewrite fexp64 in *. lia. }
    change (-1074 - -52 - -1074) with 52.
    rewrite Z.shiftl_mul_pow2 by lia.
    rewrite div_eucl_mul by reflexivity.
    change (new_location (Zpos 4503599627370496) 0) with loc_Exact.
    apply round_exact; assumption.
  - assert (-1074 < ex) as Hlo by (rewrite fexp64 in Hc; lia).
    assert (Z.min (fexp prec emax (Zpos (digits2_pos mx) + ex - (53 + -52))) (ex - -52)
            = ex - 1) as ->.
    { rewrite fexp64 in *. lia. }
    replace (ex - -52 - (ex - 1)) with 53 by lia.
    rewrite Z.shiftl_mul_pow2 by lia.
    replace (Zpos mx * 2 ^ 53) with (Zpos mx~0 * 4503599627370496) by lia.
    rewrite div_eucl_mul by reflexivity.
    change (new_location (Zpos 4503599627370496) 0) with loc_Exact.
    apply round_exact_even; assumption.
Qed.

Lemma float_div_one (x : float) : PrimFloat.div x 1%float = x.
Proof.
  apply Prim2SF_inj. rewrite FloatAxioms.div_spec.
  change (Prim2SF 1%float) with one_sf.
  pose proof (Prim2SF_valid x) as Hv.
  destruct (Prim2SF x) as [s | s | | s m e]; simpl in *.
  - rewrite xorb_false_r. reflexivity.
  - rewrite xorb_false_r. reflexivity.
  - reflexivity.
  - apply SFdiv_one. exact Hv.
Qed.
End DivisionByOne.

#[export] Instance binary64_division_by_one : DivisionByOne float.
Proof. intros x. change (fratio 1 1) with 1%float. apply float_div_one. Qed.

Ltac units :=
  repeat match goal with
  | H : _ ∈ _ :: _ |- _ => apply elem_of_cons in H; destruct H as [-> | H]
  | H : _ ∈ [] |- _ => apply elem_of_nil in H; destruct H
  | H : _ ∉ _ :: _ |- _ => apply not_elem_of_cons in H; destruct H
  end.

Ltac not_a_unit :=
  let Hin := fresh in
  intros Hin;
  repeat (apply elem_of_cons in Hin; destruct Hin as [Hin | Hin]; [discriminate |]);
  apply elem_of_nil in Hin; exact Hin.

Section Converters.
Context {F : Type} `{PyFloat F}.


Lemma invalid_distance_msg_distinct (u : string) :
  "Invalid distance unit: " ++ u ≠ output_unit_msg.
Proof. discriminate. Qed.

(** C7: the validation of [_convert_distance] goes by the source unit.
    A source unit in {km, mi} with another target unit raises the
    "must be 'mi' or 'km'" error; any other source unit raises the
    "Invalid distance unit" error, a different one, whatever the target;
    equal supported units return the value unchanged; km to mi multiplies
    by 0.621371 and mi to km by 1.60934. *)
Theorem convert_distance_by_source_unit (distance : F) (distance_unit output_distance_unit : string) :
  (distance_unit ∈ DISTANCE_UNITS → output_distance_unit ∉ DISTANCE_UNITS →
     _convert_distance distance distance_unit output_distance_unit
     = Raise (ValueError "output_distance_unit must be 'mi' or 'km'"))
  ∧ (distance_unit ∉ DISTANCE_UNITS →
     _convert_distance distance distance_unit output_distance_unit
     = Raise (ValueError ("Invalid distance unit: " ++ distance_unit))
     ∧ ValueError ("Invalid distance unit: " ++ distance_unit)
       ≠ ValueError "output_distance_unit must be 'mi' or 'km'")
  ∧ (distance_unit ∈ DISTANCE_UNITS →
     _convert_distance distance distance_unit distance_unit = Ok distance)
  ∧ _convert_distance distance "km" "mi" = Ok (fmul distance (fratio 621371 1000000))
  ∧ _convert_distance distance "mi" "km" = Ok (fmul distance (fratio 160934 100000)).
Proof.
  unfold DISTANCE_UNITS. repeat split; try reflexivity.
  - intros Hin Hout. units; unfold _convert_distance;
      repeat case_decide; try done; congruence.
  - units. unfold _convert_distance. repeat case_decide; done.
  - discriminate.
  - intros Hin. units; reflexivity.
Qed.


(** *** calculate_speed *)

Lemma calculate_speed_same_units (distance time : F) (du tu odu otu : string) :
  effective du odu = du → effective tu otu = tu →
  calculate_speed_traced distance time du tu odu otu
  = Traced [] (truediv distance (Some time)).
Proof.
  unfold effective, calculate_speed_traced. intros Hd Ht.
  rewrite Hd, Ht. rewrite !decide_False by (intros Hne; apply Hne; reflexivity).
  reflexivity.
Qed.

(** C10: with the output units left empty or equal to the input units
    and a zero time, [calculate_speed] raises [ZeroDivisionError], and
    it has called neither converter. *)
Theorem calculate_speed_zero_time (distance time : F) (du tu odu otu : string) :
  odu = "" ∨ odu = du → otu = "" ∨ otu = tu → fis_zero time = true →
  calculate_speed_traced distance time du tu odu otu = Traced [] (Raise ZeroDivisionError)
  ∧ calculate_speed distance time du tu odu otu = Raise ZeroDivisionError.
Proof.
  intros Hd Ht Hz.
  assert (calculate_speed_traced distance time du tu odu otu
          = Traced [] (Raise ZeroDivisionError)) as E.
  { rewrite calculate_speed_same_units.
    - simpl. rewrite Hz. reflexivity.
    - unfold effective. case_decide; [done | by destruct Hd].
    - unfold effective. case_decide; [done | by destruct Ht]. }
  split; [exact E | unfold calculate_speed; rewrite E; reflexivity].
Qed.

(** C4, as the code has it: a unit is only looked at by a converter, and
    a converter only runs when the output unit in effect differs from
    the input unit.  Then an unsupported distance unit on either side is
    a [ValueError]; so is an unsupported input time unit once the
    distance is through.  In particular an output distance unit ['m']
    against the default ['km'] is a [ValueError] for all values.  With
    equal units in effect nothing is validated and the quotient is
    returned. *)
Theorem calculate_speed_unit_errors (distance time : F) (du tu odu otu : string) :
  (du ≠ effective du odu →
     du ∉ DISTANCE_UNITS ∨ effective du odu ∉ DISTANCE_UNITS →
     ∃ msg, calculate_speed distance time du tu odu otu = Raise (ValueError msg))
  ∧ (du = effective du odu ∨ (du ∈ DISTANCE_UNITS ∧ effective du odu ∈ DISTANCE_UNITS) →
     tu ≠ effective tu otu → tu ∉ TIME_UNITS →
     calculate_speed distance time du tu odu otu
     = Raise (ValueError ("Invalid time unit: " ++ tu)))
  ∧ calculate_speed distance time "km" tu "m" otu
    = Raise (ValueError "output_distance_unit must be 'mi' or 'km'")
  ∧ (du = effective du odu → tu = effective tu otu →
     calculate_speed distance time du tu odu otu = truediv distance (Some time)).
Proof.
  unfold calculate_speed, calculate_speed_traced.
  fold (effective du odu). fold (effective tu otu).
  split; [| split; [| split]].
  - intros Hne Hbad. rewrite decide_True by done. simpl.
    unfold and_then, invoke. simpl.
    unfold _convert_distance, DISTANCE_UNITS in *.
    destruct Hbad as [Hbad | Hbad]; units; repeat case_decide; simpl; eauto; congruence.
  - intros Hd Hne Hbad.
    assert (∃ x, outcome (if decide (du ≠ effective du odu)
                 then invoke Call_convert_distance
                        (_convert_distance distance du (effective du odu))
                 else quiet (Ok distance)) = Ok x) as [x Hx].
    { case_decide as Hc; simpl; [| eauto].
      destruct Hd as [Hd | [Hd1 Hd2]]; [done |].
      unfold DISTANCE_UNITS in *. units; try done; simpl; eauto. }
    unfold and_then at 1. rewrite Hx. simpl.
    rewrite decide_True by done. unfold and_then, invoke. simpl.
    unfold _convert_time, TIME_UNITS in *. units.
    repeat case_decide; simpl; congruence.
  - reflexivity.
  - intros Hd Ht. rewrite !decide_False by (intros Hc; by apply Hc). reflexivity.
Qed.
End Converters.

(** C10 at the all-defaults call of the source, in binary64:
    [calculate_speed(5.0, 0.0)]. *)
Lemma calculate_speed_zero_time_witness :
  calculate_speed_traced (F:=float) 5%float 0%float "km" "hours" "" ""
  = Traced [] (Raise ZeroDivisionError)
  ∧ calculate_speed (F:=float) 5%float 0%float "km" "hours" "" "" = Raise ZeroDivisionError.
Proof.
  apply (calculate_speed_zero_time (F:=float)); [left | left |]; reflexivity.
Defined.

(** C4 as stated fails: an unsupported distance unit, or an unsupported
    time unit, passes unchecked when no output unit is given
    ([calculate_speed(5.0, 1.0, distance_unit='m')] is [5.0]), and an
    unsupported output time unit ends in a [TypeError]. *)
Lemma calculate_speed_unsupported_unit_accepted :
  ("m" ∉ DISTANCE_UNITS) ∧ ("days" ∉ TIME_UNITS)
  ∧ calculate_speed (F:=float) 5%float 1%float "m" "hours" "" "" = Ok 5%float
  ∧ calculate_speed (F:=float) 5%float 1%float "km" "days" "" "" = Ok 5%float
  ∧ calculate_speed (F:=float) 5%float 1%float "km" "hours" "" "days"
    = Raise (TypeError "unsupported operand type(s) for /: 'float' and 'NoneType'").
Proof.
  split; [| split]; [| | repeat split].
  - unfold DISTANCE_UNITS. not_a_unit.
  - unfold TIME_UNITS. not_a_unit.
Qed.

(** *** The distance round trip *)






(** ** time_difference *)


Lemma datetime_sub_opp (x y : datetime) : datetime_sub x y = (- datetime_sub y x)%Z.
Proof. unfold datetime_sub. lia. Qed.

Section TimeDifference.
Context {F : Type} `{PyFloat F}.
Variable strptime : string → string → result datetime.


(** C8: for timestamps that [strptime] accepts, [time_difference] does
    not depend on the order of its two timestamps, in every unit. *)
Theorem time_difference_symmetric `{!SymmetricRounding F}
    (a b unit : string) (da db : datetime) :
  strptime a TIMESTAMP_FORMAT = Ok da →
  strptime b TIMESTAMP_FORMAT = Ok db →
  time_difference strptime a b unit = time_difference strptime b a unit.
Proof.
  intros Ea Eb. unfold time_difference. rewrite Ea, Eb. simpl.
  assert (fabs (total_seconds (datetime_sub db da))
          = fabs (total_seconds (F:=F) (datetime_sub da db))) as ->; [| reflexivity].
  rewrite (datetime_sub_opp db da). unfold total_seconds. apply fabs_ratio_opp.
Qed.
End TimeDifference.


(** C8 on the timestamps of a doctest of the source, in binary64: 8759
    hours either way. *)
Lemma time_difference_symmetric_witness :
  time_difference (F:=float) Wire.strptime
    "1900-01-01 00:00:00 -0500" "1901-01-01 00:00:00 -0400" "hours"
  = time_difference (F:=float) Wire.strptime
      "1901-01-01 00:00:00 -0400" "1900-01-01 00:00:00 -0500" "hours".
Proof.
  apply (time_difference_symmetric (F:=float) Wire.strptime _ _ _
           (Datetime 1900 1 1 0 0 0 0 (-18000000000))
           (Datetime 1901 1 1 0 0 0 0 (-14400000000))); reflexivity.
Defined.

(** ** example_filter *)

Section ExampleFilter.
Context {F : Type} `{PyFloat F}.
Variable parse_float : string → option F.

Lemma example_filter_no_duration (element : Element) :
  get element "workoutActivityType" = Some RUNNING →
  get element "duration" = None →
  ∃ msg, example_filter parse_float element = Raise (TypeError msg).
Proof.
  intros Hrun Hdur. unfold example_filter.
  rewrite decide_True by done. rewrite Hdur. simpl. eauto.
Qed.

Lemma example_filter_other_activity (element : Element) :
  get element "workoutActivityType" ≠ Some RUNNING →
  example_filter parse_float element = Ok None.
Proof. intros Hrun. unfold example_filter. rewrite decide_False by done. reflexivity. Qed.

(** C5 (the code departs from the claim): on a running workout without
    a [duration] attribute [element.get('duration')] is [None] and
    [float(None)] raises a [TypeError]; a [duration] that is not a
    number raises a [ValueError].  Elements of another activity are
    turned down quietly. *)
Theorem example_filter_raises_without_duration :
  example_filter parse_float run_without_duration
  = Raise (TypeError "float() argument must be a string or a real number, not 'NoneType'")
  ∧ (∀ element s,
       get element "workoutActivityType" = Some RUNNING →
       get element "duration" = Some s → parse_float s = None →
       example_filter parse_float element
       = Raise (ValueError ("could not convert string to float: " ++ s))).
Proof.
  split; [reflexivity |].
  intros element s Hrun Hdur Hbad. unfold example_filter.
  rewrite decide_True by done. rewrite Hdur. simpl. rewrite Hbad. reflexivity.
Qed.
End ExampleFilter.

(** ** filter_elements *)

Lemma on_node_own_node (f : Element → result (option bool)) : own_node_only (on_node f).
Proof.
  intros st st' element Heq. unfold on_node.
  rewrite !lookup_total_alt, Heq. reflexivity.
Qed.

Lemma clear_at_other (st : store) (i j : nat) : i ≠ j → clear_at i st !! j = st !! j.
Proof. intros Hne. unfold clear_at. by rewrite lookup_alter_ne. Qed.

Lemma clear_at_same (st : store) (i : nat) : clear_at i st !! i = clear <$> st !! i.
Proof. unfold clear_at. by rewrite lookup_alter_eq. Qed.

(** The loop, from any point of the scan: [st] is the tree as the scan
    has left it so far and agrees with the parsed tree [st0] on what is
    still to come. *)
Lemma filter_loop_own_node (filt : filter_fn) (st0 : store) :
  own_node_only filt →
  ∀ (tree : list nat) (st : store) (results : list nat),
    NoDup tree →
    (∀ e, e ∈ tree → st !! e = st0 !! e) →
    (∀ e, e ∈ tree → is_Ok (filt st0 e) = true) →
    ∃ st', filter_loop filt tree st results
           = Ok ((results ++ List.filter (accepts filt st0) tree)%list, st')
      ∧ (∀ e, e ∈ tree →
           st' !! e = if accepts filt st0 e then st0 !! e else clear <$> st0 !! e)
      ∧ (∀ e, e ∉ tree → st' !! e = st !! e).
Proof.
  intros Hown tree. induction tree as [| x tree IH]; intros st results Hnd Hagree Hok.
  - exists st. simpl. rewrite app_nil_r. split; [reflexivity |]. split; [| done].
    intros e He. by apply elem_of_nil in He.
  - apply NoDup_cons in Hnd as [Hx Hnd]. simpl.
    assert (filt st x = filt st0 x) as Efilt
      by (apply Hown, Hagree; apply elem_of_cons; by left).
    rewrite Efilt. unfold accepts at 1.
    pose proof (Hok x ltac:(apply elem_of_cons; by left)) as Hokx.
    destruct (filt st0 x) as [v |] eqn:Ev; [| discriminate]. simpl.
    destruct (truthy v) eqn:Hv.
    + destruct (IH st (results ++ [x])%list Hnd) as (st' & Eloop & Hin & Hout).
      { intros e He. apply Hagree. apply elem_of_cons. by right. }
      { intros e He. apply Hok. apply elem_of_cons. by right. }
      exists st'. rewrite Eloop, <- app_assoc. split; [reflexivity |]. split.
      * intros e [-> | He]%elem_of_cons; [| by apply Hin].
        rewrite Hout by done. unfold accepts. rewrite Ev, Hv.
        apply Hagree. apply elem_of_cons. by left.
      * intros e [Hne He]%not_elem_of_cons. by apply Hout.
    + destruct (IH (clear_at x st) results Hnd) as (st' & Eloop & Hin & Hout).
      { intros e He. rewrite clear_at_other by (intros ->; done).
        apply Hagree. apply elem_of_cons. by right. }
      { intros e He. apply Hok. apply elem_of_cons. by right. }
      exists st'. rewrite Eloop. split; [reflexivity |]. split.
      * intros e [-> | He]%elem_of_cons; [| by apply Hin].
        rewrite Hout by done. unfold accepts. rewrite Ev, Hv.
        rewrite clear_at_same. f_equal. apply Hagree. apply elem_of_cons. by left.
      * intros e [Hne He]%not_elem_of_cons.
        rewrite Hout by done. by apply clear_at_other.
Qed.




(** ** plot_speed_by_run *)

Lemma bind_Ok {A B} (m : result A) (k : A → result B) (b : B) :
  (m ≫= k) = Ok b → ∃ a, m = Ok a ∧ k a = Ok b.
Proof. destruct m as [a |]; simpl; [eauto | discriminate]. Qed.

(** *** The first-wins rule *)

Section FirstPerDate.
Context {A : Type}.
Implicit Types (seen : list string) (records : list (string * A)).

Lemma first_per_date_dates seen records (d : string) :
  d ∈ (first_per_date seen records).*1 ↔ d ∈ records.*1 ∧ d ∉ seen.
Proof.
  revert seen. induction records as [| [d' v] records IH]; intros seen; simpl.
  - split; [intros Hin; by apply elem_of_nil in Hin | intros [Hin _]; by apply elem_of_nil in Hin].
  - case_decide as Hseen; simpl; rewrite ?elem_of_cons, IH, ?elem_of_cons.
    + split; [intros [? ?]; auto | intros [[-> | ?] ?]; [done | auto]].
    + split.
      * intros [-> | [Hin Hout]]; [auto |].
        split; [auto |]. intros Hd. apply Hout. by right.
      * intros [[-> | Hin] Hout]; [auto |].
        destruct (decide (d = d')) as [-> | Hne]; [auto |].
        right. split; [done |]. intros [? | ?]; done.
Qed.

Lemma first_per_date_NoDup seen records : NoDup (first_per_date seen records).*1.
Proof.
  revert seen. induction records as [| [d v] records IH]; intros seen; simpl.
  - apply NoDup_nil_2.
  - case_decide; simpl; [apply IH |].
    apply NoDup_cons. split; [| apply IH].
    rewrite first_per_date_dates. intros [_ Hout]. apply Hout. by left.
Qed.

Lemma first_per_date_sublist seen records : sublist (first_per_date seen records) records.
Proof.
  revert seen. induction records as [| [d v] records IH]; intros seen; simpl.
  - constructor.
  - case_decide; [apply sublist_cons | apply sublist_skip]; apply IH.
Qed.

(** A record is kept exactly when it is the first of its date and the
    date was not seen before. *)
Lemma first_per_date_first seen records (d : string) (v : A) :
  (d, v) ∈ first_per_date seen records ↔
  (d ∉ seen) ∧ ∃ before after, records = (before ++ (d, v) :: after)%list ∧ d ∉ before.*1.
Proof.
  revert seen. induction records as [| [d' v'] records IH]; intros seen; simpl.
  - split; [intros Hin; by apply elem_of_nil in Hin |].
    intros (_ & before & after & E & _). by destruct before.
  - case_decide as Hseen.
    + rewrite IH. split.
      * intros (Hout & before & after & -> & Hfirst). split; [done |].
        exists ((d', v') :: before), after. split; [done |].
        simpl. intros [-> | ?]%elem_of_cons; done.
      * intros (Hout & before & after & E & Hfirst). split; [done |].
        destruct before as [| p before]; simpl in *.
        -- by simplify_eq.
        -- simplify_eq. exists before, after. split; [done |].
           intros ?. apply Hfirst. by right.
    + rewrite elem_of_cons, IH. split.
      * intros [[= -> ->] | (Hout & before & after & -> & Hfirst)].
        -- split; [done |]. exists [], records. split; [done | apply not_elem_of_nil].
        -- split; [intros ?; apply Hout; by right |].
           exists ((d', v') :: before), after. split; [done |].
           simpl. intros [-> | ?]%elem_of_cons; [| done]. apply Hout. by left.
      * intros (Hout & before & after & E & Hfirst).
        destruct before as [| p before]; simpl in *.
        -- simplify_eq. by left.
        -- simplify_eq. right. split.
           ++ intros [-> | ?]%elem_of_cons; [| done]. apply Hfirst. by left.
           ++ exists before, after. split; [done |]. intros ?. apply Hfirst. by right.
Qed.
End FirstPerDate.

(** *** The loop *)

Lemma tracks_empty : tracks ∅ [].
Proof.
  intros d. unfold not_tracked. rewrite lookup_empty. split; [discriminate |].
  intros Hin. by apply elem_of_nil in Hin.
Qed.

Lemma tracks_insert (tracker : gmap string Z) (seen : list string) (d : string) :
  tracks tracker seen → tracks (<[d := 1%Z]> tracker) (d :: seen).
Proof.
  intros Ht d'. unfold not_tracked.
  destruct (decide (d = d')) as [-> | Hne].
  - rewrite lookup_insert_eq. simpl. split; [intros _; apply elem_of_cons; by left | done].
  - rewrite lookup_insert_ne by done. fold (not_tracked tracker d').
    rewrite elem_of_cons. split.
    + intros Hn. right. by apply Ht.
    + intros [-> | Hin]; [done | by apply Ht].
Qed.

Section Aggregate.
Context {F : Type} `{PyFloat F}.
Variable strptime : string → string → result datetime.
Variable parse_float : string → option F.

Abbreviation run_step := (run_step strptime parse_float).
Abbreviation run_loop := (run_loop strptime parse_float).
Abbreviation run_record := (run_record strptime parse_float).
Abbreviation speed_by_run := (speed_by_run strptime parse_float).

(** One iteration on a well-formed run: its record is appended when its
    date is not tracked yet, and the state is left alone otherwise. *)
Lemma run_step_record (run : Element) (d : string) (v : F)
    (tracker : gmap string Z) (results : Results) :
  run_record run = Ok (d, v) →
  run_step run (tracker, results) =
    Ok (if not_tracked tracker d
        then (<[d := 1%Z]> tracker,
              mkResults (date results ++ [d])%list (speed results ++ [v])%list)
        else (tracker, results)).
Proof.
  unfold Runs.run_record, run_date, run_speed, run_time. intros Hrec.
  apply bind_Ok in Hrec as (d0 & Hdate & Hrec).
  apply bind_Ok in Hrec as (v0 & Hspeed & Hrec). simplify_eq.
  apply bind_Ok in Hdate as (creationDate & Ecreation & Hdate).
  apply bind_Ok in Hdate as (created & Ecreated & Hdate). simplify_eq.
  apply bind_Ok in Hspeed as (time_in_hours & Htime & Hspeed).
  apply bind_Ok in Htime as (startDate & Estart & Htime).
  apply bind_Ok in Htime as (endDate & Eend & Etime).
  apply bind_Ok in Hspeed as (totalDistance & Etotal & Hspeed).
  apply bind_Ok in Hspeed as (distance & Edistance & Hspeed).
  apply bind_Ok in Hspeed as (totalDistanceUnit & Eunit & Espeed).
  unfold Runs.run_step.
  rewrite Estart; simpl. rewrite Eend; simpl. rewrite Etime; simpl.
  rewrite Ecreation; simpl. rewrite Ecreated; simpl.
  destruct (not_tracked tracker (date_strftime created)); [| reflexivity].
  rewrite Etotal; simpl. simpl in Edistance. rewrite Edistance; simpl. rewrite Eunit; simpl.
  rewrite Espeed; simpl. reflexivity.
Qed.

Lemma run_loop_records (runs : list Element) (records : list (string * F)) :
  Forall2 (λ run r, run_record run = Ok r) runs records →
  ∀ (tracker : gmap string Z) (results : Results) (seen : list string),
    tracks tracker seen →
    ∃ tracker',
      run_loop runs (tracker, results) =
        Ok (tracker',
            mkResults (date results ++ (first_per_date seen records).*1)%list
                      (speed results ++ (first_per_date seen records).*2)%list).
Proof.
  induction 1 as [| run [d v] runs records Hrec _ IH]; intros tracker results seen Ht.
  - exists tracker. simpl. rewrite !app_nil_r. by destruct results.
  - change (run_loop (run :: runs) (tracker, results))
      with (run_step run (tracker, results) ≫= run_loop runs).
    rewrite (run_step_record run d v) by done. simpl.
    destruct (not_tracked tracker d) eqn:Hnt.
    + rewrite decide_False by (intros Hin; apply Ht in Hin; congruence).
      destruct (IH (<[d := 1%Z]> tracker)
                  (mkResults (date results ++ [d])%list (speed results ++ [v])%list)
                  (d :: seen) (tracks_insert _ _ _ Ht)) as (tracker' & E).
      exists tracker'. rewrite E. simpl. rewrite <- !app_assoc. reflexivity.
    + rewrite decide_True by (by apply Ht). by apply IH.
Qed.

(** C2: over well-formed runs (each has a creation date and a speed),
    the rows handed to the plot are the first-wins selection of the
    specification: one row per date, no date twice, each row the record
    of the first run of its date, in the order in which the dates first
    appear. *)
Theorem speed_by_run_first_wins (runs : list Element) (records : list (string * F)) :
  Forall2 (λ run r, run_record run = Ok r) runs records →
  ∃ res, speed_by_run runs = Ok res
    ∧ rows res = first_per_date [] records
    ∧ NoDup (rows res).*1
    ∧ (∀ d, d ∈ (rows res).*1 ↔ d ∈ records.*1)
    ∧ (∀ d v, (d, v) ∈ rows res ↔
         ∃ before after, records = (before ++ (d, v) :: after)%list ∧ d ∉ before.*1)
    ∧ sublist (rows res) records.
Proof.
  intros Hrec.
  destruct (run_loop_records runs records Hrec ∅ (mkResults [] []) [] tracks_empty)
    as (tracker' & E).
  eexists. unfold Runs.speed_by_run. rewrite E. simpl. split; [reflexivity |].
  assert (rows (mkResults (first_per_date [] records).*1 (first_per_date [] records).*2)
          = first_per_date [] records) as ->.
  { unfold rows. simpl. apply zip_fst_snd. }
  split; [reflexivity |]. split; [apply first_per_date_NoDup |]. split; [| split].
  - intros d. rewrite first_per_date_dates. split; [by intros [? _] |].
    intros Hin. split; [done | apply not_elem_of_nil].
  - intros d v. rewrite first_per_date_first. split; [by intros [_ ?] |].
    intros Hfirst. split; [apply not_elem_of_nil | done].
  - apply first_per_date_sublist.
Qed.
End Aggregate.

(** C2 on the three sample runs, in binary64 with the wire-form reader
    and the decimal reader. *)
Lemma speed_by_run_first_wins_witness :
  ∃ res, speed_by_run Wire.strptime Decimal.parse three_runs = Ok res
    ∧ rows res = first_per_date [] three_records
    ∧ NoDup (rows res).*1
    ∧ (∀ d, d ∈ (rows res).*1 ↔ d ∈ three_records.*1)
    ∧ (∀ d v, (d, v) ∈ rows res ↔
         ∃ before after, three_records = (before ++ (d, v) :: after)%list ∧ d ∉ before.*1)
    ∧ sublist (rows res) three_records.
Proof.
  apply (speed_by_run_first_wins (F:=float) Wire.strptime Decimal.parse).
  unfold three_runs, three_records.
  repeat (constructor; [vm_compute; reflexivity |]). constructor.
Defined.

(** The whole of [plot_speed_by_run] up to the plot: the scan keeps the
    running workouts as parsed, so the rows are those of the loop over
    the running workouts of the document. *)
Lemma plot_speed_by_run_scan {F} `{PyFloat F}
    (strptime : string → string → result datetime) (parse_float : string → option F)
    (st : store) (events : list nat) :
  NoDup events →
  plot_speed_by_run strptime parse_float st events
  = speed_by_run strptime parse_float
      ((λ element, st !!! element) <$> List.filter (accepts (on_node _filter_runs) st) events).
Proof.
  intros Hnd.
  destruct (filter_loop_own_node (on_node _filter_runs) st (on_node_own_node _)
              events st [] Hnd) as (st' & E & Hin & _).
  { done. }
  { intros e _. unfold on_node, _filter_runs. by case_decide. }
  unfold plot_speed_by_run, filter_elements. rewrite E. simpl. f_equal.
  apply list_fmap_ext. intros i e He.
  apply list_elem_of_lookup_2, list_elem_of_In, filter_In in He as [He Hacc].
  apply list_elem_of_In in He.
  rewrite !lookup_total_alt, (Hin e He), Hacc. reflexivity.
Qed.

(** ** The repository's tests and doctests, in binary64 *)

Example test_calculate_speed :
  calculate_speed (F:=float) 5%float 0.45%float "km" "hours" "" ""
  = Ok 11.11111111111111%float
  ∧ calculate_speed (F:=float) 5%float 0.45%float "km" "hours" "mi" ""
    = Ok 6.904122222222222%float.
Proof. split; vm_compute; reflexivity. Qed.

Example test_time_difference :
  time_difference (F:=float) Wire.strptime
    "1900-01-01 00:00:00 -0500" "1901-01-01 00:05:00 -0500" "hours"
  = Ok 8760.083333333334%float
  ∧ time_difference (F:=float) Wire.strptime
      "1900-01-01 00:00:00 -0500" "1901-01-01 00:06:00 -0500" "hours"
    = Ok 8760.1%float.
Proof. split; vm_compute; reflexivity. Qed.

Example doctest_calculate_speed :
  calculate_speed (F:=float) 5%float 0.55%float "km" "hours" "mi" ""
  = Ok 5.648827272727272%float
  ∧ calculate_speed (F:=float) 5%float 0.55%float "km" "hours" "km" ""
    = Ok 9.09090909090909%float
  ∧ calculate_speed (F:=float) 5%float 1%float "km" "hours" "" "" = Ok 5%float
  ∧ calculate_speed (F:=float) 5%float 0.55%float "km" "hours" "m" ""
    = Raise (ValueError "output_distance_unit must be 'mi' or 'km'").
Proof. repeat split; vm_compute; reflexivity. Qed.

Example doctest_time_difference :
  time_difference (F:=float) Wire.strptime
    "1900-01-01 00:00:00 -0500" "1901-01-01 00:00:00 -0500" "hours" = Ok 8760%float
  ∧ time_difference (F:=float) Wire.strptime
      "1900-01-01 00:00:00 -0500" "1901-01-02 00:00:00 -0500" "hours" = Ok 8784%float
  ∧ time_difference (F:=float) Wire.strptime
      "1900-01-01 00:00:00 -0500" "1901-01-01 00:00:00 -0400" "hours" = Ok 8759%float.
Proof. repeat split; vm_compute; reflexivity. Qed.

(** The first-wins rule on the sample runs: the second run of 7 March
    is dropped. *)
Example three_runs_rows :
  speed_by_run (F:=float) Wire.strptime Decimal.parse three_runs
  = Ok (mkResults ["2021-03-07"; "2021-03-08"] [10%float; 7.5%float]).
Proof. vm_compute. reflexivity. Qed.

(** * Further properties of the code *)

(** ** The time converter and its caller *)

Section TimeConverter.
Context {F : Type} `{PyFloat F}.

Lemma convert_time_None (time : F) (time_unit output_time_unit : string) :
  time_unit ∈ TIME_UNITS → output_time_unit ∉ TIME_UNITS →
  _convert_time time time_unit output_time_unit = Ok None.
Proof.
  unfold TIME_UNITS. intros Hin Hout.
  units; unfold _convert_time; repeat case_decide; done.
Qed.

(** X1: [_convert_time] checks the source unit and nothing else.  With a
    supported source unit it returns a number exactly when the target is
    another supported unit, and [None] (no error) for every other target,
    the source unit itself included; with any other source unit it raises
    the "Invalid time unit" error whatever the target. *)
Theorem convert_time_checks_source_only (time : F) (time_unit output_time_unit : string) :
  (time_unit ∈ TIME_UNITS →
     ((∃ v, _convert_time time time_unit output_time_unit = Ok (Some v))
      ↔ output_time_unit ∈ TIME_UNITS ∧ output_time_unit ≠ time_unit)
     ∧ (¬ (output_time_unit ∈ TIME_UNITS ∧ output_time_unit ≠ time_unit) →
        _convert_time time time_unit output_time_unit = Ok None))
  ∧ (time_unit ∉ TIME_UNITS →
     _convert_time time time_unit output_time_unit
     = Raise (ValueError ("Invalid time unit: " ++ time_unit))).
Proof.
  unfold TIME_UNITS. split.
  - intros Hin.
    assert (output_time_unit ∈ ["seconds"; "minutes"; "hours"]
            ∧ output_time_unit ≠ time_unit
            ∨ ¬ (output_time_unit ∈ ["seconds"; "minutes"; "hours"]
                 ∧ output_time_unit ≠ time_unit)) as [[Hout Hne] | Hno].
    { destruct (decide (output_time_unit ∈ ["seconds"; "minutes"; "hours"]));
        destruct (decide (output_time_unit = time_unit)); tauto. }
    + split; [| tauto]. split; [done | intros _].
      units; try done; simpl; eauto.
    + assert (_convert_time time time_unit output_time_unit = Ok None) as E.
      { units; unfold _convert_time; repeat case_decide; try done; subst;
          exfalso; apply Hno; (split; [set_solver | done]). }
      split; [| done]. rewrite E. split; [intros [v Hv]; discriminate | tauto].
  - intros Hout. units. unfold _convert_time. repeat case_decide; done.
Qed.

(** X2: an unsupported output time unit is not reported as a unit error.
    When the distance step goes through and the time unit is supported,
    [calculate_speed] reaches the division with [None] for the time and
    raises a [TypeError], for all values. *)
Theorem calculate_speed_bad_output_time_unit (distance time : F) (du tu odu otu : string) :
  du = effective du odu ∨ (du ∈ DISTANCE_UNITS ∧ effective du odu ∈ DISTANCE_UNITS) →
  tu ∈ TIME_UNITS →
  effective tu otu ∉ TIME_UNITS →
  calculate_speed distance time du tu odu otu
  = Raise (TypeError "unsupported operand type(s) for /: 'float' and 'NoneType'").
Proof.
  intros Hd Htu Hotu.
  unfold calculate_speed, calculate_speed_traced.
  fold (effective du odu). fold (effective tu otu).
  assert (∃ x, outcome (if decide (du ≠ effective du odu)
               then invoke Call_convert_distance
                      (_convert_distance distance du (effective du odu))
               else quiet (Ok distance)) = Ok x) as [x Hx].
  { case_decide as Hc; simpl; [| eauto].
    destruct Hd as [Hd | [Hd1 Hd2]]; [done |].
    unfold DISTANCE_UNITS in *. units; try done; simpl; eauto. }
  unfold and_then at 1. rewrite Hx. simpl.
  assert (tu ≠ effective tu otu) as Hne by (intros Heq; apply Hotu; by rewrite <- Heq).
  rewrite decide_True by done. unfold and_then, invoke. simpl.
  rewrite convert_time_None by done. reflexivity.
Qed.
End TimeConverter.

(** X2 on [calculate_speed(5.0, 1.0, output_time_unit='days')], in
    binary64. *)
Lemma calculate_speed_bad_output_time_unit_witness :
  calculate_speed (F:=float) 5%float 1%float "km" "hours" "" "days"
  = Raise (TypeError "unsupported operand type(s) for /: 'float' and 'NoneType'").
Proof.
  apply (calculate_speed_bad_output_time_unit (F:=float)).
  - left. reflexivity.
  - unfold TIME_UNITS. repeat constructor.
  - unfold TIME_UNITS. not_a_unit.
Defined.





(** ** time_difference: failures, instants, sign *)

Lemma datetime_sub_instant (x y : datetime) : datetime_sub x y = (instant x - instant y)%Z.
Proof. unfold datetime_sub, instant. lia. Qed.

Section TimeDifferenceFurther.
Context {F : Type} `{PyFloat F}.
Variable strptime : string → string → result datetime.

(** X4: [time_difference] returns a number exactly when both timestamps
    parse and the unit is one of the six; a timestamp that does not parse
    is reported before an invalid unit, and the first timestamp before
    the second. *)
Theorem time_difference_succeeds_iff (d1 d2 unit : string) :
  (is_Ok (time_difference strptime d1 d2 unit) = true
   ↔ is_Ok (strptime d1 TIMESTAMP_FORMAT) = true
     ∧ is_Ok (strptime d2 TIMESTAMP_FORMAT) = true
     ∧ unit ∈ DIVISORS.*1)
  ∧ (∀ e, strptime d1 TIMESTAMP_FORMAT = Raise e →
       time_difference strptime d1 d2 unit = Raise e)
  ∧ (∀ e, is_Ok (strptime d1 TIMESTAMP_FORMAT) = true →
       strptime d2 TIMESTAMP_FORMAT = Raise e →
       time_difference strptime d1 d2 unit = Raise e).
Proof.
  unfold time_difference. split; [| split].
  - destruct (strptime d1 TIMESTAMP_FORMAT) as [x1 |]; simpl;
      [| split; [discriminate | intros [Hf _]; discriminate]].
    destruct (strptime d2 TIMESTAMP_FORMAT) as [x2 |]; simpl;
      [| split; [discriminate | intros (_ & Hf & _); discriminate]].
    unfold DIVISORS. simpl. split.
    + intros Hok. split; [done |]. split; [done |].
      repeat case_decide; subst; try discriminate; set_solver.
    + intros (_ & _ & Hin). units; reflexivity.
  - intros e ->. reflexivity.
  - intros e Hok ->. destruct (strptime d1 TIMESTAMP_FORMAT); [reflexivity | discriminate].
Qed.

(** X5: [time_difference] compares instants, not civil times: two pairs
    of timestamps that denote the same two instants, in whatever UTC
    offsets they are written, give the same result in every unit. *)
Theorem time_difference_by_instant (a b a' b' unit : string) (da db da' db' : datetime) :
  strptime a TIMESTAMP_FORMAT = Ok da → strptime b TIMESTAMP_FORMAT = Ok db →
  strptime a' TIMESTAMP_FORMAT = Ok da' → strptime b' TIMESTAMP_FORMAT = Ok db' →
  instant da = instant da' → instant db = instant db' →
  time_difference strptime a b unit = time_difference strptime a' b' unit.
Proof.
  intros Ea Eb Ea' Eb' Hia Hib. unfold time_difference.
  rewrite Ea, Eb, Ea', Eb'. simpl.
  rewrite !datetime_sub_instant, Hia, Hib. reflexivity.
Qed.
End TimeDifferenceFurther.

(** X5 on one hour of 1900 written in two offsets each. *)
Lemma time_difference_by_instant_witness :
  time_difference (F:=float) Wire.strptime
    "1900-01-01 00:00:00 -0500" "1900-01-01 01:00:00 -0500" "minutes"
  = time_difference (F:=float) Wire.strptime
      "1900-01-01 01:00:00 -0400" "1900-01-01 07:30:00 +0130" "minutes".
Proof.
  apply (time_difference_by_instant (F:=float) Wire.strptime _ _ _ _ _
           (Datetime 1900 1 1 0 0 0 0 (-18000000000))
           (Datetime 1900 1 1 1 0 0 0 (-18000000000))
           (Datetime 1900 1 1 1 0 0 0 (-14400000000))
           (Datetime 1900 1 1 7 30 0 0 5400000000)); reflexivity.
Defined.

(** X6: in binary64, two timestamps of the same instant are 0.0 apart in
    every supported unit, whatever their offsets. *)
Theorem time_difference_same_instant (strptime : string → string → result datetime)
    (a b unit : string) (da db : datetime) :
  strptime a TIMESTAMP_FORMAT = Ok da → strptime b TIMESTAMP_FORMAT = Ok db →
  instant da = instant db → unit ∈ DIVISORS.*1 →
  time_difference (F:=float) strptime a b unit = Ok 0%float.
Proof.
  intros Ea Eb Hi Hunit. unfold time_difference. rewrite Ea, Eb. simpl.
  rewrite datetime_sub_instant, Hi, Z.sub_diag.
  unfold DIVISORS in Hunit. simpl in Hunit. units; reflexivity.
Qed.

(** X6 on half past eleven at night in New York and half past four the
    next morning in Greenwich. *)
Lemma time_difference_same_instant_witness :
  time_difference (F:=float) Wire.strptime
    "2021-03-07 23:30:00 -0500" "2021-03-08 04:30:00 +0000" "hours" = Ok 0%float.
Proof.
  apply (time_difference_same_instant Wire.strptime _ _ _
           (Datetime 2021 3 7 23 30 0 0 (-18000000000))
           (Datetime 2021 3 8 4 30 0 0 0)); try reflexivity.
  unfold DIVISORS. simpl. repeat constructor.
Defined.





(** ** filter_elements with any filter *)




(** The loop stops at the first exception. *)
Lemma filter_loop_raises (filt : filter_fn) (st0 : store) (e : nat) (after : list nat)
    (ex : exn) :
  own_node_only filt →
  filt st0 e = Raise ex →
  ∀ (before : list nat) (st : store) (results : list nat),
    NoDup (before ++ e :: after) →
    (∀ x, x ∈ (before ++ e :: after)%list → st !! x = st0 !! x) →
    Forall (λ x, is_Ok (filt st0 x) = true) before →
    filter_loop filt (before ++ e :: after) st results = Raise ex.
Proof.
  intros Hown Hraise. induction before as [| x before IH]; intros st results Hnd Hagree Hok.
  - simpl. rewrite (Hown st st0 e) by (apply Hagree; apply elem_of_cons; by left).
    rewrite Hraise. reflexivity.
  - apply Forall_cons in Hok as [Hokx Hok].
    change ((x :: before) ++ e :: after)%list with (x :: (before ++ e :: after))%list in *.
    apply NoDup_cons in Hnd as [Hx Hnd]. simpl.
    rewrite (Hown st st0 x) by (apply Hagree; apply elem_of_cons; by left).
    destruct (filt st0 x) as [v |]; [| discriminate]. simpl.
    destruct (truthy v).
    + apply IH; [done | | done]. intros y Hy. apply Hagree. apply elem_of_cons. by right.
    + apply IH; [done | | done]. intros y Hy.
      rewrite clear_at_other by (intros ->; done).
      apply Hagree. apply elem_of_cons. by right.
Qed.

(** X9: an exception of the filter ends the scan and is the outcome of
    [filter_elements]: no list is returned, however many elements were
    accepted before.  (For a filter that reads only the node it is given,
    over a document whose elements are each yielded once.) *)
Theorem filter_elements_raises (filt : filter_fn) (st : store)
    (before after : list nat) (e : nat) (ex : exn) :
  own_node_only filt →
  NoDup (before ++ e :: after) →
  Forall (λ x, is_Ok (filt st x) = true) before →
  filt st e = Raise ex →
  filter_elements filt st (before ++ e :: after) = Raise ex.
Proof.
  intros Hown Hnd Hok Hraise. unfold filter_elements.
  by apply (filter_loop_raises filt st e after ex Hown Hraise).
Qed.

(** X9 on [example_filter] over four workouts, the third a run with no
    duration: the first is accepted, the second turned down, the third
    raises. *)
Lemma filter_elements_raises_witness :
  filter_elements (on_node (example_filter (F:=float) Decimal.parse)) untimed
    ([0; 1]%nat ++ 2%nat :: [3]%nat)%list
  = Raise (TypeError "float() argument must be a string or a real number, not 'NoneType'").
Proof.
  apply (filter_elements_raises (on_node (example_filter (F:=float) Decimal.parse))
           untimed [0; 1]%nat [3]%nat 2%nat).
  - apply on_node_own_node.
  - apply (bool_decide_unpack _). reflexivity.
  - repeat constructor.
  - reflexivity.
Defined.

Section ExampleFilterScan.
Context {F : Type} `{PyFloat F}.
Variable parse_float : string → option F.

Lemma example_filter_accepts (st : store) (e : nat) :
  (get (st !!! e) "workoutActivityType" = Some RUNNING →
   ∃ s x, get (st !!! e) "duration" = Some s ∧ parse_float s = Some x) →
  is_Ok (on_node (example_filter parse_float) st e) = true
  ∧ accepts (on_node (example_filter parse_float)) st e = long_run parse_float (st !!! e).
Proof.
  intros Hwf. unfold accepts, on_node, example_filter, long_run.
  case_decide as Hrun.
  - destruct (Hwf Hrun) as (s & x & Hs & Hx). rewrite Hs. simpl. rewrite Hx. simpl.
    rewrite bool_decide_eq_true_2 by done. simpl.
    destruct (float_truthy x); simpl; done.
  - rewrite bool_decide_eq_false_2 by done. done.
Qed.

(** X10: [filter_elements] with [example_filter], over a document whose
    running workouts all carry a duration that parses: it does not raise
    and returns, in the order of the scan, exactly the running workouts
    whose duration is not zero and at least 30 (thirty itself included);
    no workout of another activity is returned, whatever its
    attributes. *)
Theorem filter_elements_example_filter (st : store) (events : list nat) :
  NoDup events →
  (∀ e, e ∈ events → get (st !!! e) "workoutActivityType" = Some RUNNING →
     ∃ s x, get (st !!! e) "duration" = Some s ∧ parse_float s = Some x) →
  ∃ st', filter_elements (on_node (example_filter parse_float)) st events
         = Ok (List.filter (λ e, long_run parse_float (st !!! e)) events, st')
    ∧ ∀ e, e ∈ List.filter (λ e, long_run parse_float (st !!! e)) events →
        get (st !!! e) "workoutActivityType" = Some RUNNING.
Proof.
  intros Hnd Hwf.
  destruct (filter_loop_own_node (on_node (example_filter parse_float)) st
              (on_node_own_node _) events st [] Hnd) as (st' & E & _ & _).
  { done. }
  { intros e He. by apply example_filter_accepts, Hwf. }
  exists st'. split.
  - unfold filter_elements. rewrite E. simpl. do 2 f_equal.
    apply filter_ext_in. intros e He%list_elem_of_In.
    by apply example_filter_accepts, Hwf.
  - intros e [_ Hlong]%list_elem_of_In%filter_In. unfold long_run in Hlong.
    apply andb_prop in Hlong as [Hrun _]. by apply bool_decide_eq_true in Hrun.
Qed.
End ExampleFilterScan.

(** X10 on four workouts: the runs of 45.5 and of 30 are kept, the run
    of 12 and the walk of 60 are not. *)
Lemma filter_elements_example_filter_witness :
  ∃ st', filter_elements (on_node (example_filter (F:=float) Decimal.parse)) timed
           [0; 1; 2; 3]%nat
         = Ok (List.filter (λ e, long_run (F:=float) Decimal.parse (timed !!! e))
                 [0; 1; 2; 3]%nat, st')
    ∧ ∀ e, e ∈ List.filter (λ e, long_run (F:=float) Decimal.parse (timed !!! e))
                 [0; 1; 2; 3]%nat →
        get (timed !!! e) "workoutActivityType" = Some RUNNING.
Proof.
  apply (filter_elements_example_filter (F:=float) Decimal.parse timed [0; 1; 2; 3]%nat).
  - apply (bool_decide_unpack _). reflexivity.
  - intros e He _.
    repeat (apply elem_of_cons in He; destruct He as [-> | He];
            [eexists _, _; split; vm_compute; reflexivity |]).
    by apply elem_of_nil in He.
Defined.

Example timed_long_runs :
  List.filter (λ e, long_run (F:=float) Decimal.parse (timed !!! e)) [0; 1; 2; 3]%nat
  = [0; 3]%nat.
Proof. vm_compute. reflexivity. Qed.

(** ** plot_speed_by_run: what the loop keeps, what ends it *)

Lemma run_loop_app {F} `{PyFloat F} (strptime : string → string → result datetime)
    (parse_float : string → option F) (runs more : list Element)
    (state : gmap string Z * Results) :
  run_loop strptime parse_float (runs ++ more) state
  = run_loop strptime parse_float runs state ≫= run_loop strptime parse_float more.
Proof.
  revert state. induction runs as [| run runs IH]; intros state; simpl; [done |].
  destruct (run_step strptime parse_float run state) as [state' |]; simpl; [apply IH | done].
Qed.

Lemma elem_of_first_dates (seen keys : list string) (d : string) :
  d ∈ first_dates seen keys ↔ d ∈ keys ∧ d ∉ seen.
Proof.
  revert seen. induction keys as [| k keys IH]; intros seen; simpl.
  - rewrite elem_of_nil. split; [done | by intros [? _]].
  - case_decide as Hseen; rewrite ?elem_of_cons, IH, ?elem_of_cons.
    + split; [intros [? ?]; auto |]. intros [[-> | Hin] Hout]; [done | auto].
    + split.
      * intros [-> | [Hin Hout]]; [auto |]. split; [auto |]. intros Hd. apply Hout. by right.
      * intros [[-> | Hin] Hout]; [auto |].
        destruct (decide (d = k)) as [-> | Hne]; [auto |].
        right. split; [done |]. intros [? | ?]; done.
Qed.

Lemma NoDup_first_dates (seen keys : list string) : NoDup (first_dates seen keys).
Proof.
  revert seen. induction keys as [| k keys IH]; intros seen; simpl.
  - apply NoDup_nil_2.
  - case_decide; [apply IH |]. apply NoDup_cons. split; [| apply IH].
    rewrite elem_of_first_dates. intros [_ Hout]. apply Hout. by left.
Qed.

Lemma tracks_same (tracker : gmap string Z) (seen seen' : list string) :
  (∀ d, d ∈ seen ↔ d ∈ seen') → tracks tracker seen → tracks tracker seen'.
Proof. intros Heq Ht d. rewrite <- Heq. apply Ht. Qed.

Section Loop.
Context {F : Type} `{PyFloat F}.
Variable strptime : string → string → result datetime.
Variable parse_float : string → option F.

Abbreviation run_step := (run_step strptime parse_float).
Abbreviation run_loop := (run_loop strptime parse_float).
Abbreviation run_date := (run_date strptime).
Abbreviation run_time := (run_time strptime).
Abbreviation run_speed := (run_speed strptime parse_float).
Abbreviation run_record := (run_record strptime parse_float).
Abbreviation speed_by_run := (speed_by_run strptime parse_float).
Abbreviation plot_speed_by_run := (plot_speed_by_run strptime parse_float).

(** What an iteration that returns has read, and what it has done. *)
Lemma run_step_inv (run : Element) (tracker : gmap string Z) (results : Results)
    (state' : gmap string Z * Results) :
  run_step run (tracker, results) = Ok state' →
  ∃ d t, run_date run = Ok d ∧ run_time run = Ok t
    ∧ if not_tracked tracker d
      then ∃ v, run_speed run = Ok v
             ∧ state' = (<[d := 1%Z]> tracker,
                         mkResults (date results ++ [d])%list (speed results ++ [v])%list)
      else state' = (tracker, results).
Proof.
  unfold Runs.run_step. intros Hstep.
  apply bind_Ok in Hstep as (startDate & Estart & Hstep).
  apply bind_Ok in Hstep as (endDate & Eend & Hstep).
  apply bind_Ok in Hstep as (t & Etime & Hstep).
  apply bind_Ok in Hstep as (creationDate & Ecreation & Hstep).
  apply bind_Ok in Hstep as (created & Ecreated & Hstep).
  exists (date_strftime created), t.
  assert (run_time run = Ok t) as Ht.
  { unfold Runs.run_time. rewrite Estart; simpl. rewrite Eend; simpl. exact Etime. }
  split. { unfold Runs.run_date. rewrite Ecreation; simpl. rewrite Ecreated. reflexivity. }
  split; [exact Ht |].
  destruct (not_tracked tracker (date_strftime created)); [| by simplify_eq].
  apply bind_Ok in Hstep as (totalDistance & Etotal & Hstep).
  apply bind_Ok in Hstep as (distance & Edistance & Hstep).
  apply bind_Ok in Hstep as (totalDistanceUnit & Eunit & Hstep).
  apply bind_Ok in Hstep as (v & Espeed & Hstep).
  exists v. split; [| by simplify_eq].
  unfold Runs.run_speed. rewrite Ht; simpl. rewrite Etotal; simpl.
  simpl in Edistance. rewrite Edistance; simpl. rewrite Eunit; simpl. exact Espeed.
Qed.

(** A run of a date that is already tracked is passed over once its
    three timestamps are read. *)
Lemma run_step_skip (run : Element) (d : string) (t : F)
    (tracker : gmap string Z) (results : Results) :
  run_date run = Ok d → run_time run = Ok t → not_tracked tracker d = false →
  run_step run (tracker, results) = Ok (tracker, results).
Proof.
  unfold Runs.run_date, Runs.run_time. intros Hdate Htime Hnt.
  apply bind_Ok in Hdate as (creationDate & Ecreation & Hdate).
  apply bind_Ok in Hdate as (created & Ecreated & Hdate). simplify_eq.
  apply bind_Ok in Htime as (startDate & Estart & Htime).
  apply bind_Ok in Htime as (endDate & Eend & Etime).
  unfold Runs.run_step.
  rewrite Estart; simpl. rewrite Eend; simpl. rewrite Etime; simpl.
  rewrite Ecreation; simpl. rewrite Ecreated; simpl. rewrite Hnt. reflexivity.
Qed.

(** The loop, whenever it returns: the columns it has built and the
    dates its tracker answers for. *)
Lemma run_loop_inv (runs : list Element) :
  ∀ (tracker tracker' : gmap string Z) (results results' : Results) (seen : list string),
    tracks tracker seen →
    run_loop runs (tracker, results) = Ok (tracker', results') →
    ∃ keys, Forall2 (λ run d, run_date run = Ok d) runs keys
      ∧ date results' = (date results ++ first_dates seen keys)%list
      ∧ length (speed results')
        = (length (speed results) + length (first_dates seen keys))%nat
      ∧ tracks tracker' (keys ++ seen)%list.
Proof.
  induction runs as [| run runs IH]; intros tracker tracker' results results' seen Ht Hloop.
  - simpl in Hloop. simplify_eq. exists []. simpl. rewrite app_nil_r.
    split; [constructor |]. split; [done |]. split; [lia | done].
  - simpl in Hloop. apply bind_Ok in Hloop as (state1 & Hstep & Hloop).
    apply run_step_inv in Hstep as (d & t & Hd & _ & Hstate).
    destruct (not_tracked tracker d) eqn:Hnt.
    + destruct Hstate as (v & _ & ->).
      apply (IH _ _ _ _ (d :: seen) (tracks_insert _ _ _ Ht)) in Hloop
        as (keys & Hkeys & Hdates & Hlen & Ht').
      exists (d :: keys). simpl in *.
      rewrite decide_False by (intros Hin; apply Ht in Hin; congruence).
      split; [by constructor |]. split; [by rewrite Hdates, <- app_assoc |].
      split; [rewrite Hlen, length_app; simpl; lia |].
      eapply tracks_same; [| exact Ht']. intros d'. set_solver.
    + subst state1.
      apply (IH _ _ _ _ seen Ht) in Hloop as (keys & Hkeys & Hdates & Hlen & Ht').
      assert (d ∈ seen) as Hin by (by apply Ht).
      exists (d :: keys). simpl. rewrite decide_True by done.
      split; [by constructor |]. split; [done |]. split; [done |].
      eapply tracks_same; [| exact Ht']. intros d'. set_solver.
Qed.

Lemma speed_by_run_inv (runs : list Element) (res : Results) :
  speed_by_run runs = Ok res →
  ∃ tracker keys, run_loop runs (∅, mkResults [] []) = Ok (tracker, res)
    ∧ Forall2 (λ run d, run_date run = Ok d) runs keys
    ∧ date res = first_dates [] keys
    ∧ length (speed res) = length (date res)
    ∧ tracks tracker keys.
Proof.
  unfold Runs.speed_by_run. intros Hres.
  apply bind_Ok in Hres as ([tracker res'] & Hloop & Hres). simpl in Hres. simplify_eq.
  pose proof Hloop as Hinv.
  apply (run_loop_inv _ _ _ _ _ [] tracks_empty) in Hinv
    as (keys & Hkeys & Hdates & Hlen & Ht).
  simpl in Hdates, Hlen. rewrite app_nil_r in Ht.
  exists tracker, keys. split; [done |]. split; [done |]. split; [done |].
  split; [by rewrite Hlen, Hdates | done].
Qed.

(** The loop over more runs, after a part that returned. *)
Lemma speed_by_run_app (before more : list Element) (state : gmap string Z * Results) :
  run_loop before (∅, mkResults [] []) = Ok state →
  speed_by_run (before ++ more) = run_loop more state ≫= λ state, Ok (state.2).
Proof. intros Hloop. unfold Runs.speed_by_run. rewrite run_loop_app, Hloop. reflexivity. Qed.

(** X11: whenever the loop of [plot_speed_by_run] returns, whatever the
    runs carry: every run has a date key, the date column holds those
    keys in order of first appearance and none of them twice, and the
    speed column is as long as the date column (what the data frame
    needs). *)
Theorem speed_by_run_columns (runs : list Element) (res : Results) :
  speed_by_run runs = Ok res →
  ∃ keys, Forall2 (λ run d, run_date run = Ok d) runs keys
    ∧ date res = first_dates [] keys
    ∧ length (speed res) = length (date res)
    ∧ NoDup (date res)
    ∧ ∀ d, d ∈ date res ↔ d ∈ keys.
Proof.
  intros Hres. apply speed_by_run_inv in Hres as (tracker & keys & _ & Hkeys & Hdates & Hlen & _).
  exists keys. split; [done |]. split; [done |]. split; [done |].
  rewrite Hdates. split; [apply NoDup_first_dates |].
  intros d. rewrite elem_of_first_dates. split; [by intros [? _] |].
  intros Hin. split; [done | apply not_elem_of_nil].
Qed.

(** X12: a run of a date that already has a row changes nothing, and
    needs no distance: only its three timestamps are read.  Appending
    such a run to runs that the loop handles gives the same columns,
    whether or not it carries [totalDistance] or [totalDistanceUnit]. *)
Theorem speed_by_run_later_run (runs : list Element) (res : Results)
    (run : Element) (d : string) :
  speed_by_run runs = Ok res →
  run_date run = Ok d → d ∈ date res →
  is_Ok (run_time run) = true →
  speed_by_run (runs ++ [run]) = Ok res.
Proof.
  intros Hres Hd Hin Htime.
  apply speed_by_run_inv in Hres as (tracker & keys & Hloop & _ & Hdates & _ & Ht).
  destruct (run_time run) as [t |] eqn:Et; [| discriminate].
  assert (not_tracked tracker d = false) as Hnt.
  { apply Ht. rewrite Hdates in Hin. by apply elem_of_first_dates in Hin as [? _]. }
  rewrite (speed_by_run_app _ _ _ Hloop).
  change (run_loop [run] (tracker, res)) with (run_step run (tracker, res) ≫= run_loop []).
  rewrite (run_step_skip run d t) by done. reflexivity.
Qed.

(** X13: a run without a [startDate] ends the whole aggregation in a
    [KeyError], wherever it stands and even if its date already has a
    row: the rows gathered before it are not returned. *)
Theorem speed_by_run_missing_start (before after : list Element) (res : Results)
    (run : Element) :
  speed_by_run before = Ok res →
  attrib run !! "startDate" = None →
  speed_by_run (before ++ run :: after) = Raise (KeyError "startDate").
Proof.
  intros Hres Hmiss.
  apply speed_by_run_inv in Hres as (tracker & keys & Hloop & _).
  rewrite (speed_by_run_app _ _ _ Hloop).
  change (run_loop (run :: after) (tracker, res))
    with (run_step run (tracker, res) ≫= run_loop after).
  unfold Runs.run_step, getitem. rewrite Hmiss. reflexivity.
Qed.

(** X14: a run that ends at the instant it starts, and is the first of
    its date, ends the whole aggregation in a [ZeroDivisionError]. *)
Theorem speed_by_run_zero_duration (before after : list Element) (res : Results)
    (run : Element) (d s u : string) (t x : F) :
  speed_by_run before = Ok res →
  run_date run = Ok d → d ∉ date res →
  run_time run = Ok t → fis_zero t = true →
  attrib run !! "totalDistance" = Some s → parse_float s = Some x →
  attrib run !! "totalDistanceUnit" = Some u →
  speed_by_run (before ++ run :: after) = Raise ZeroDivisionError.
Proof.
  intros Hres Hd Hfresh Ht Hz Hs Hx Hu.
  apply speed_by_run_inv in Hres as (tracker & keys & Hloop & _ & Hdates & _ & Htr).
  assert (not_tracked tracker d = true) as Hnt.
  { destruct (not_tracked tracker d) eqn:E; [done |]. exfalso. apply Hfresh.
    rewrite Hdates. apply elem_of_first_dates. split; [by apply Htr | apply not_elem_of_nil]. }
  rewrite (speed_by_run_app _ _ _ Hloop).
  change (run_loop (run :: after) (tracker, res))
    with (run_step run (tracker, res) ≫= run_loop after).
  unfold Runs.run_date, Runs.run_time in *.
  apply bind_Ok in Hd as (creationDate & Ecreation & Hd).
  apply bind_Ok in Hd as (created & Ecreated & Hd). simplify_eq.
  apply bind_Ok in Ht as (startDate & Estart & Ht).
  apply bind_Ok in Ht as (endDate & Eend & Etime).
  unfold Runs.run_step.
  rewrite Estart; simpl. rewrite Eend; simpl. rewrite Etime; simpl.
  rewrite Ecreation; simpl. rewrite Ecreated; simpl. rewrite Hnt.
  unfold getitem. rewrite Hs; simpl. rewrite Hx; simpl. rewrite Hu; simpl.
  unfold calculate_speed. rewrite calculate_speed_same_units by done.
  simpl. rewrite Hz. reflexivity.
Qed.

(** X15: the loop never converts and never checks the distance unit.
    The speed of a run is its [totalDistance] over its hours in
    whatever unit the run names, supported or not, so a series mixes
    kilometres per hour with miles per hour as the runs come. *)
Theorem speed_by_run_single (run : Element) (d s u : string) (t x : F) :
  run_date run = Ok d →
  run_time run = Ok t → fis_zero t = false →
  attrib run !! "totalDistance" = Some s → parse_float s = Some x →
  attrib run !! "totalDistanceUnit" = Some u →
  speed_by_run [run] = Ok (mkResults [d] [fdiv x t]).
Proof.
  intros Hd Ht Hz Hs Hx Hu.
  assert (run_record run = Ok (d, fdiv x t)) as Hrec.
  { unfold Runs.run_record, Runs.run_speed. rewrite Hd; simpl. rewrite Ht; simpl.
    unfold getitem. rewrite Hs; simpl. rewrite Hx; simpl. rewrite Hu; simpl.
    unfold calculate_speed. rewrite calculate_speed_same_units by done.
    simpl. rewrite Hz. reflexivity. }
  unfold Runs.speed_by_run.
  change (run_loop [run] (∅, mkResults [] []))
    with (run_step run (∅, mkResults [] []) ≫= run_loop []).
  rewrite (run_step_record strptime parse_float run d (fdiv x t)) by done.
  reflexivity.
Qed.

Lemma filter_none {A} (f : A → bool) (l : list A) :
  (∀ x, x ∈ l → f x = false) → List.filter f l = [].
Proof.
  induction l as [| x l IH]; intros Hf; simpl; [done |].
  rewrite Hf by (apply elem_of_cons; by left).
  apply IH. intros y Hy. apply Hf. apply elem_of_cons. by right.
Qed.

(** X16: [plot_speed_by_run] looks at running workouts only.  Over a
    document whose elements are each yielded once and whose running
    workouts are well formed, it does not raise, whatever the other
    elements carry, and its rows are the first-wins selection among the
    records of the running workouts in the order of the scan. *)
Theorem plot_speed_by_run_first_wins (st : store) (events : list nat)
    (records : list (string * F)) :
  NoDup events →
  Forall2 (λ run r, run_record run = Ok r)
    ((λ element, st !!! element) <$> List.filter (accepts (on_node _filter_runs) st) events)
    records →
  ∃ res, plot_speed_by_run st events = Ok res ∧ rows res = first_per_date [] records.
Proof.
  intros Hnd Hrec. rewrite plot_speed_by_run_scan by done.
  destruct (run_loop_records strptime parse_float _ records Hrec ∅ (mkResults [] []) []
              tracks_empty) as (tracker' & E).
  eexists. unfold Runs.speed_by_run. rewrite E. simpl. split; [reflexivity |].
  unfold rows. simpl. apply zip_fst_snd.
Qed.

(** X17: over a document with no running workout, the empty document
    included, [plot_speed_by_run] hands two empty columns to the plot;
    it reads no timestamp and cannot raise. *)
Theorem plot_speed_by_run_no_runs (st : store) (events : list nat) :
  NoDup events →
  (∀ e, e ∈ events → get (st !!! e) "workoutActivityType" ≠ Some RUNNING) →
  plot_speed_by_run st events = Ok (mkResults [] []).
Proof.
  intros Hnd Hnone. rewrite plot_speed_by_run_scan by done.
  rewrite filter_none; [reflexivity |].
  intros e He. unfold accepts, on_node, _filter_runs.
  rewrite decide_False by (by apply Hnone). reflexivity.
Qed.
End Loop.

(** X11 on the three sample runs. *)
Lemma speed_by_run_columns_witness :
  ∃ keys, Forall2 (λ run d, run_date Wire.strptime run = Ok d) three_runs keys
    ∧ date three_rows = first_dates [] keys
    ∧ length (speed three_rows) = length (date three_rows)
    ∧ NoDup (date three_rows)
    ∧ ∀ d, d ∈ date three_rows ↔ d ∈ keys.
Proof.
  apply (speed_by_run_columns (F:=float) Wire.strptime Decimal.parse three_runs three_rows).
  vm_compute. reflexivity.
Defined.

(** X12 on the three sample runs followed by a second run of 8 March
    that has no distance. *)
Lemma speed_by_run_later_run_witness :
  speed_by_run (F:=float) Wire.strptime Decimal.parse (three_runs ++ [late_run])%list
  = Ok three_rows.
Proof.
  apply (speed_by_run_later_run (F:=float) Wire.strptime Decimal.parse
           three_runs three_rows late_run "2021-03-08").
  - vm_compute. reflexivity.
  - vm_compute. reflexivity.
  - unfold three_rows. simpl. repeat constructor.
  - vm_compute. reflexivity.
Defined.

(** X13 on the three sample runs, a run without start date, and one
    more run. *)
Lemma speed_by_run_missing_start_witness :
  speed_by_run (F:=float) Wire.strptime Decimal.parse
    (three_runs ++ no_start_run :: [late_run])%list
  = Raise (KeyError "startDate").
Proof.
  apply (speed_by_run_missing_start (F:=float) Wire.strptime Decimal.parse
           three_runs [late_run] three_rows no_start_run).
  - vm_compute. reflexivity.
  - vm_compute. reflexivity.
Defined.

(** X14 on the three sample runs followed by a run of no duration on a
    new date. *)
Lemma speed_by_run_zero_duration_witness :
  speed_by_run (F:=float) Wire.strptime Decimal.parse
    (three_runs ++ zero_run :: [])%list
  = Raise ZeroDivisionError.
Proof.
  apply (speed_by_run_zero_duration (F:=float) Wire.strptime Decimal.parse
           three_runs [] three_rows zero_run "2021-03-09" "0.1" "km"
           0%float 0.1%float).
  - vm_compute. reflexivity.
  - vm_compute. reflexivity.
  - unfold three_rows. simpl. not_a_unit.
  - vm_compute. reflexivity.
  - reflexivity.
  - vm_compute. reflexivity.
  - vm_compute. reflexivity.
  - vm_compute. reflexivity.
Defined.

(** X15 on a run of 24 furlongs in half an hour. *)
Lemma speed_by_run_single_witness :
  speed_by_run (F:=float) Wire.strptime Decimal.parse [furlong_run]
  = Ok (mkResults ["2021-03-10"] [fdiv 24%float 0.5%float]).
Proof.
  apply (speed_by_run_single (F:=float) Wire.strptime Decimal.parse
           furlong_run "2021-03-10" "24" "furlong" 0.5%float 24%float);
    vm_compute; reflexivity.
Defined.

(** X16 on the sample export: the heart-rate record, the walk and the
    root are passed over, the three runs give two rows. *)
Lemma plot_speed_by_run_first_wins_witness :
  ∃ res, plot_speed_by_run (F:=float) Wire.strptime Decimal.parse export export_events
         = Ok res
    ∧ rows res = first_per_date [] three_records.
Proof.
  apply (plot_speed_by_run_first_wins (F:=float) Wire.strptime Decimal.parse
           export export_events three_records).
  - apply (bool_decide_unpack _). reflexivity.
  - replace ((λ element, export !!! element)
             <$> List.filter (accepts (on_node _filter_runs) export) export_events)
      with (as_running <$> three_runs) by (vm_compute; reflexivity).
    unfold three_runs, three_records. simpl.
    repeat (constructor; [vm_compute; reflexivity |]). constructor.
Defined.

(** X17 on an export that holds one walk. *)
Lemma plot_speed_by_run_no_runs_witness :
  plot_speed_by_run (F:=float) Wire.strptime Decimal.parse quiet_export [0; 1]%nat
  = Ok (mkResults [] []).
Proof.
  apply (plot_speed_by_run_no_runs (F:=float) Wire.strptime Decimal.parse
           quiet_export [0; 1]%nat).
  - apply (bool_decide_unpack _). reflexivity.
  - intros e He.
    repeat (apply elem_of_cons in He; destruct He as [-> | He];
            [vm_compute; discriminate |]).
    by apply elem_of_nil in He.
Defined.

(** ** calculate_speed: when it reports a unit *)

Section UnitErrors.
Context {F : Type} `{PyFloat F}.

Lemma convert_distance_outcome (distance : F) (du odu : string) :
  du ≠ odu →
  (du ∈ DISTANCE_UNITS ∧ odu ∈ DISTANCE_UNITS
   ∧ ∃ x, _convert_distance distance du odu = Ok x)
  ∨ ((du ∉ DISTANCE_UNITS ∨ odu ∉ DISTANCE_UNITS)
     ∧ ∃ msg, _convert_distance distance du odu = Raise (ValueError msg)).
Proof.
  intros Hne. unfold DISTANCE_UNITS.
  destruct (decide (du ∈ ["km"; "mi"])) as [Hdu | Hdu];
    [destruct (decide (odu ∈ ["km"; "mi"])) as [Hodu | Hodu] |].
  - left. split; [done |]. split; [done |]. units; try done; simpl; eauto.
  - right. split; [by right |]. units; unfold _convert_distance;
      repeat case_decide; try done; eauto; congruence.
  - right. split; [by left |]. units. unfold _convert_distance.
    repeat case_decide; try done; eauto.
Qed.

Lemma convert_time_outcome (time : F) (tu otu : string) :
  (tu ∈ TIME_UNITS ∧ ∃ o, _convert_time time tu otu = Ok o)
  ∨ ((tu ∉ TIME_UNITS)
     ∧ _convert_time time tu otu = Raise (ValueError ("Invalid time unit: " ++ tu))).
Proof.
  unfold TIME_UNITS. destruct (decide (tu ∈ ["seconds"; "minutes"; "hours"])) as [Htu | Htu].
  - left. split; [done |].
    units; unfold _convert_time; repeat case_decide; try done; eauto.
  - right. split; [done |]. units. unfold _convert_time. repeat case_decide; done.
Qed.

Ltac not_a_unit_error Hm :=
  exfalso; unfold truediv in Hm;
  repeat match type of Hm with
         | context [match ?y with Some _ => _ | None => _ end] => destruct y
         | context [if ?b then _ else _] => destruct b
         end;
  discriminate Hm.

(** X18: [calculate_speed] raises a [ValueError] in exactly two
    situations: the distance units in effect differ and one of them is
    outside {km, mi}; or the distance step goes through, the time units
    in effect differ and the input time unit is outside
    {seconds, minutes, hours}.  Nothing else is ever reported as a unit
    error: not a unit that equals its output unit, and not an
    unsupported output time unit. *)
Theorem calculate_speed_ValueError_iff (distance time : F) (du tu odu otu : string) :
  (∃ msg, calculate_speed distance time du tu odu otu = Raise (ValueError msg))
  ↔ (du ≠ effective du odu
     ∧ (du ∉ DISTANCE_UNITS ∨ effective du odu ∉ DISTANCE_UNITS))
    ∨ ((du = effective du odu
        ∨ (du ∈ DISTANCE_UNITS ∧ effective du odu ∈ DISTANCE_UNITS))
       ∧ tu ≠ effective tu otu ∧ tu ∉ TIME_UNITS).
Proof.
  unfold calculate_speed, calculate_speed_traced.
  fold (effective du odu). fold (effective tu otu).
  destruct (decide (du ≠ effective du odu)) as [Hdne | Hdeq].
  - destruct (convert_distance_outcome distance du (effective du odu) Hdne)
      as [(Hdu & Hodu & x & Ex) | (Hbad & msg & Ex)].
    + unfold and_then at 1, invoke. simpl. rewrite Ex. simpl.
      destruct (decide (tu ≠ effective tu otu)) as [Htne | Hteq].
      * destruct (convert_time_outcome time tu (effective tu otu))
          as [(Htu & o & Eo) | (Htu & Eo)];
          unfold and_then, invoke; simpl; rewrite Eo; simpl.
        -- split; [intros [m Hm]; not_a_unit_error Hm |].
           intros [[_ [? | ?]] | (_ & _ & ?)]; done.
        -- split; [intros _; right; tauto | eauto].
      * unfold and_then, quiet. simpl.
        split; [intros [m Hm]; not_a_unit_error Hm |].
        intros [[_ [? | ?]] | (_ & ? & _)]; done.
    + unfold and_then at 1, invoke. simpl. rewrite Ex. simpl.
      split; [intros _; left; tauto | eauto].
  - assert (du = effective du odu) as Hd by (destruct (decide (du = effective du odu)); tauto).
    unfold and_then at 1, quiet. simpl.
    destruct (decide (tu ≠ effective tu otu)) as [Htne | Hteq].
    + destruct (convert_time_outcome time tu (effective tu otu))
        as [(Htu & o & Eo) | (Htu & Eo)];
        unfold and_then, invoke; simpl; rewrite Eo; simpl.
      * split; [intros [m Hm]; not_a_unit_error Hm |].
        intros [[? _] | (_ & _ & ?)]; done.
      * split; [intros _; right; tauto | eauto].
    + unfold and_then, quiet. simpl.
      split; [intros [m Hm]; not_a_unit_error Hm |].
      intros [[? _] | (_ & ? & _)]; done.
Qed.
End UnitErrors.
